(** * cc-personality: session reconstruction, statistics and archetype

    A shallow embedding of [cli.mjs]: the per-file session reconstruction of
    [scanSessions], the statistics of [computeStats], the rule scan of
    [getArchetype] and the part of [main] that chains them.

    Conventions of the embedding.
    - A JavaScript number is a [num]: an exact rational, one of the two
      infinities, or NaN.  IEEE-754 rounding is abstracted (arithmetic on
      finite values is exact) and the two zeros are not told apart.  Where
      the code adds, multiplies or divides numbers that are not whole, a
      theorem states its bound with a margin that covers the rounding of
      the doubles, not the exact value.
    - A [Date] is its time value in milliseconds, or the Invalid Date.
    - The host's time zone and what its date parser makes of a printed
      date outside the years 100 to 9999 are parameters.
    - The file system and JSON parsing are outside the model: a file is
      represented by what [parseTimestamp] returned for its first and its
      last line. *)

From Stdlib Require Import QArith Qround Qabs Qminmax ZArith List Bool Lia Lqa.
From Stdlib Require Import String Ascii Decimal DecimalString.
From Stdlib Require Import Sorted Permutation.
Import ListNotations.

(** ** JavaScript numbers *)

Module JS.

Inductive num : Type :=
| Fin (q : Q)
| PInf
| NInf
| NaN.

Definition of_Z (z : Z) : num := Fin (inject_Z z).
Definition of_nat (n : nat) : num := of_Z (Z.of_nat n).

(** Equality of numbers up to the representation of the rational. *)
Definition num_eq (a b : num) : Prop :=
  match a, b with
  | Fin x, Fin y => x == y
  | PInf, PInf | NInf, NInf => True
  | _, _ => False
  end.

Definition Qpos_b (q : Q) : bool := negb (Qle_bool q 0).
Definition Qzero_b (q : Q) : bool := Qeq_bool q 0.

(** [a + b] *)
Definition add (a b : num) : num :=
  match a, b with
  | NaN, _ | _, NaN => NaN
  | Fin x, Fin y => Fin (x + y)
  | PInf, NInf | NInf, PInf => NaN
  | PInf, _ | _, PInf => PInf
  | NInf, _ | _, NInf => NInf
  end.

(** [-a] *)
Definition neg (a : num) : num :=
  match a with
  | Fin x => Fin (- x)
  | PInf => NInf
  | NInf => PInf
  | NaN => NaN
  end.

(** [a - b] *)
Definition sub (a b : num) : num :=
  match a, b with
  | Fin x, Fin y => Fin (x - y)
  | _, _ => add a (neg b)
  end.

(** +Infinity when [positive], -Infinity otherwise. *)
Definition inf (positive : bool) : num := if positive then PInf else NInf.

(** [a * b] *)
Definition mul (a b : num) : num :=
  match a, b with
  | NaN, _ | _, NaN => NaN
  | Fin x, Fin y => Fin (x * y)
  | Fin x, PInf | PInf, Fin x => if Qzero_b x then NaN else inf (Qpos_b x)
  | Fin x, NInf | NInf, Fin x => if Qzero_b x then NaN else inf (negb (Qpos_b x))
  | PInf, PInf | NInf, NInf => PInf
  | PInf, NInf | NInf, PInf => NInf
  end.

(** [a / b]: a finite non-zero value over zero is an infinity, 0/0 is NaN. *)
Definition div (a b : num) : num :=
  match a, b with
  | NaN, _ | _, NaN => NaN
  | Fin x, Fin y =>
      if Qzero_b y then (if Qzero_b x then NaN else inf (Qpos_b x))
      else Fin (x / y)
  | Fin _, _ => Fin 0
  | PInf, Fin y => inf (Qle_bool 0 y)
  | NInf, Fin y => inf (negb (Qle_bool 0 y))
  | _, _ => NaN
  end.

(** [a < b]; every comparison with NaN is false. *)
Definition ltb (a b : num) : bool :=
  match a, b with
  | NaN, _ | _, NaN => false
  | Fin x, Fin y => negb (Qle_bool y x)
  | _, NInf => false
  | NInf, _ => true
  | PInf, _ => false
  | _, PInf => true
  end.

(** [a <= b] *)
Definition leb (a b : num) : bool :=
  match a, b with
  | NaN, _ | _, NaN => false
  | Fin x, Fin y => Qle_bool x y
  | NInf, _ => true
  | _, PInf => true
  | _, _ => false
  end.

(** [a > b] and [a >= b] *)
Definition gtb (a b : num) : bool := ltb b a.
Definition geb (a b : num) : bool := leb b a.

(** [a === b] on numbers. *)
Definition eqb (a b : num) : bool :=
  match a, b with
  | Fin x, Fin y => Qeq_bool x y
  | PInf, PInf | NInf, NInf => true
  | _, _ => false
  end.

(** [Math.max(a, b)] *)
Definition max (a b : num) : num :=
  match a, b with
  | NaN, _ | _, NaN => NaN
  | _, _ => if leb a b then b else a
  end.

(** [Math.ceil(a)] *)
Definition ceil (a : num) : num :=
  match a with
  | Fin x => of_Z (Qceiling x)
  | _ => a
  end.

(** Integer part towards zero (ToIntegerOrInfinity on a finite value). *)
Definition Qtrunc (q : Q) : Z := Z.quot (Qnum q) (Zpos (Qden q)).

End JS.

Declare Scope js_scope.
Delimit Scope js_scope with js.
Bind Scope js_scope with JS.num.
Infix "+" := JS.add : js_scope.
Infix "-" := JS.sub : js_scope.
Infix "*" := JS.mul : js_scope.
Infix "/" := JS.div : js_scope.
Infix "<?" := JS.ltb : js_scope.
Infix "<=?" := JS.leb : js_scope.
Infix ">?" := JS.gtb (at level 70) : js_scope.
Infix ">=?" := JS.geb (at level 70) : js_scope.
Infix "===" := JS.eqb (at level 70) : js_scope.
Notation "$ q" := (JS.Fin q%Q) (at level 5, q at level 1, format "$ q") : js_scope.

(** ** Dates *)

Inductive Date : Type :=
| ValidDate (t : Z)      (* time value, milliseconds since the epoch *)
| InvalidDate.           (* time value NaN *)

(** [d.getTime()], also the number a Date converts to in [a - b]. *)
Definition getTime (d : Date) : JS.num :=
  match d with
  | ValidDate t => JS.of_Z t
  | InvalidDate => JS.NaN
  end.

(** Largest magnitude of a time value (TimeClip): 8.64e15 ms. *)
Definition maxTimeValue : Z := 8640000000000000.

(** [new Date(v)] for a number [v]: TimeClip. *)
Definition new_Date (v : JS.num) : Date :=
  match v with
  | JS.Fin q =>
      if Qle_bool (Qabs q) (inject_Z maxTimeValue)
      then ValidDate (JS.Qtrunc q) else InvalidDate
  | _ => InvalidDate
  end.

(** A time value a Date object can hold. *)
Definition date_in_range (d : Date) : Prop :=
  match d with
  | ValidDate t => (- maxTimeValue <= t <= maxTimeValue)%Z
  | InvalidDate => True
  end.

(** ** Sessions and their reconstruction ([scanSessions]) *)

Record Session : Type := mkSession {
  start : Date;
  end_ : Date;
  hours : JS.num;
}.

(** What [parseTimestamp] gave for the first and the last line of one
    transcript file; [None] is JavaScript's [null]. *)
Record RawObservation : Type := mkObs {
  firstTimestamp : option Date;
  lastTimestamp : option Date;
}.

Open Scope js_scope.

Definition SESSION_GAP_HOURS : JS.num := $0.5.

(** [for (let i = 0; i < bound; i++) out.push(body(i))].  The test fails at
    once on NaN; a finite bound [q] admits the integers [0 .. ceil(q) - 1].
    (A bound of +Infinity would never stop; [scanFile] never produces
    one, see [numSubs_not_PInf].) *)
Definition for_lt {A : Type} (bound : JS.num) (body : nat -> A) : list A :=
  match bound with
  | JS.Fin q => map body (seq 0 (Z.to_nat (Qceiling q)))
  | _ => []
  end.

(** [durationHours] of a file: [(endTime - start) / 3600000]. *)
Definition durationHours (start endTime : Date) : JS.num :=
  (getTime endTime - getTime start) / $3600000.

(** [end || start] *)
Definition endTime_of (o : RawObservation) (start : Date) : Date :=
  match lastTimestamp o with Some e => e | None => start end.

Definition numSubs_of (durationHours : JS.num) : JS.num :=
  JS.max $1 (JS.ceil (durationHours / $2)).

(** The body of the per-file loop of [scanSessions], from the two parsed
    timestamps on. *)
Definition scanFile (o : RawObservation) : list Session :=
  match firstTimestamp o with
  | None => []                                  (* if (!start) continue *)
  | Some start =>
      let endTime := endTime_of o start in
      let durationHours := durationHours start endTime in
      if durationHours <? SESSION_GAP_HOURS * $2 then
        [ mkSession start endTime (JS.max durationHours $0.01) ]
      else
        let numSubs := numSubs_of durationHours in
        for_lt numSubs (fun i =>
          let subStart :=
            new_Date (getTime start
                      + (JS.of_nat i / numSubs) * (getTime endTime - getTime start)) in
          mkSession subStart subStart (durationHours / numSubs))
  end.

(** [scanSessions]: the files are visited in order and their sessions pushed
    onto one array. *)
Definition scanSessions (files : list RawObservation) : list Session :=
  fold_left (fun sessions o => sessions ++ scanFile o) files [].

(** The statistics object that [computeStats] returns. *)
Record Stats : Type := mkStats {
  totalSessions : nat;
  totalHours : JS.num;
  activeDays : nat;
  totalDays : JS.num;
  maxStreak : nat;
  nightPct : JS.num;
  morningPct : JS.num;
  afternoonPct : JS.num;
  eveningPct : JS.num;
  weekendRatio : JS.num;
  avgSessionHours : JS.num;
  hourBuckets : list nat;
  dayBuckets : list nat;
  projectCount : nat;
  peakHour : Z;
}.

(** [stats.projectCount = p] *)
Definition set_projectCount (s : Stats) (p : nat) : Stats :=
  mkStats (totalSessions s) (totalHours s) (activeDays s) (totalDays s)
          (maxStreak s) (nightPct s) (morningPct s) (afternoonPct s)
          (eveningPct s) (weekendRatio s) (avgSessionHours s)
          (hourBuckets s) (dayBuckets s) p (peakHour s).

(** ** Personality archetypes ([ARCHETYPES]) *)

(** An archetype object.  The default one that [getArchetype] returns has no
    [condition] property. *)
Record Archetype : Type := mkArchetype {
  id : string;
  name : string;
  jp : string;
  tagline : string;
  condition : option (Stats -> bool);
  description : string;
}.

Definition dq : string := String (ascii_of_nat 34) EmptyString.
Definition quoted (s : string) : string := (dq ++ s ++ dq)%string.

Definition night_beast : Archetype := {|
  id := "night_beast";
  name := "🌙 The Midnight Beast";
  jp := "深夜の怪物";
  tagline := quoted "The compiler doesn't sleep, and neither do I.";
  condition := Some (fun s => nightPct s >=? $0.30);
  description := "Your code runs on moonlight and caffeine. Peak hours: 0-5 AM.";
|}.

Definition dawn_coder : Archetype := {|
  id := "dawn_coder";
  name := "🌅 The Dawn Coder";
  jp := "夜明けのコーダー";
  tagline := quoted "Fresh mind, fresh commits.";
  condition := Some (fun s => morningPct s >=? $0.40);
  description := "You code when the world sleeps. Clear mind, elegant solutions.";
|}.

Definition machine : Archetype := {|
  id := "machine";
  name := "🤖 The Unstoppable Machine";
  jp := "不滅の機械";
  tagline := quoted "Rest days are a human concept.";
  condition := Some (fun s => JS.of_nat (maxStreak s) >=? $30);
  description := "Consecutive days without a break. You simply don't stop.";
|}.

Definition weekend_warrior : Archetype := {|
  id := "weekend_warrior";
  name := "⚔️ The Weekend Warrior";
  jp := "週末の戦士";
  tagline := quoted "Monday to Friday is warmup.";
  condition := Some (fun s => weekendRatio s >=? $1.8);
  description := "Saturday and Sunday are your real working days.";
|}.

Definition burst_genius : Archetype := {|
  id := "burst_genius";
  name := "⚡ The Burst Genius";
  jp := "バースト型天才";
  tagline := quoted "I do nothing for days, then ship everything at once.";
  condition := Some (fun s =>
    (JS.of_nat (activeDays s) >? $0)
    && ((totalDays s / JS.of_nat (activeDays s)) >=? $2.5));
  description := "Irregular patterns. Long silences. Then explosive productivity.";
|}.

Definition disciplined : Archetype := {|
  id := "disciplined";
  name := "📐 The Disciplined Architect";
  jp := "規律の申し子";
  tagline := quoted "Consistency beats intensity.";
  condition := Some (fun s =>
    (JS.of_nat (activeDays s) >? $0)
    && ((totalDays s / JS.of_nat (activeDays s)) <? $1.3)
    && (totalHours s / JS.of_nat (activeDays s) <? $6));
  description := "Steady pace every day. You finish what you start.";
|}.

Definition session_monster : Archetype := {|
  id := "session_monster";
  name := "🔥 The Session Monster";
  jp := "セッション怪獣";
  tagline := quoted "One more context window...";
  condition := Some (fun s => avgSessionHours s >=? $2.5);
  description := "Long, deep sessions. You go down the rabbit hole and don't come back.";
|}.

Definition micro_shipper : Archetype := {|
  id := "micro_shipper";
  name := "📦 The Micro-Shipper";
  jp := "超高速出荷者";
  tagline := quoted "Ship small, ship often.";
  condition := Some (fun s =>
    JS.of_nat (totalSessions s) / JS.of_nat (activeDays s) >=? $15);
  description := "Dozens of sessions per day. Fast, iterative, relentless.";
|}.

Definition explorer : Archetype := {|
  id := "explorer";
  name := "🗺️ The Code Explorer";
  jp := "コード探検家";
  tagline := quoted "Every project is a new world.";
  condition := Some (fun s => JS.of_nat (projectCount s) >=? $20);
  description := "Many projects, curious mind. You explore, you don't settle.";
|}.

Definition mono_focused : Archetype := {|
  id := "mono_focused";
  name := "🎯 The Mono-Focused";
  jp := "モノフォーカスの匠";
  tagline := quoted "One project. Total mastery.";
  condition := Some (fun s =>
    (JS.of_nat (projectCount s) <=? $3)
    && (JS.of_nat (totalSessions s) >=? $100));
  description := "Deep obsession with one thing. Mastery over breadth.";
|}.

Definition ARCHETYPES : list Archetype :=
  [ night_beast; dawn_coder; machine; weekend_warrior; burst_genius;
    disciplined; session_monster; micro_shipper; explorer; mono_focused ].

(** ** Statistics ([computeStats]) *)

(** [a.slice(from, to)] and [a.slice(from)] *)
Definition slice {A : Type} (from to : nat) (a : list A) : list A :=
  firstn (to - from) (skipn from a).
Definition slice_from {A : Type} (from : nat) (a : list A) : list A :=
  skipn from a.

(** [a.reduce((x, y) => x + y, 0)] on an array of counts. *)
Definition sum (a : list nat) : nat := fold_left Nat.add a 0%nat.

(** [a[i]++] for an index inside the array. *)
Fixpoint bump (i : nat) (a : list nat) : list nat :=
  match a, i with
  | [], _ => []
  | x :: r, O => S x :: r
  | x :: r, S j => x :: bump j r
  end.

(** [a[k]++] where [k] is the result of [getHours()] or [getDay()]: on an
    Invalid Date the key is NaN, which is not an index, and the counters
    stay as they are. *)
Definition bump_at (k : option nat) (a : list nat) : list nat :=
  match k with
  | Some i => bump i a
  | None => a
  end.

(** [sessions.reduce((s, x) => s + x.hours, 0)] *)
Definition sumHours (sessions : list Session) : JS.num :=
  fold_left (fun s x => s + hours x) sessions $0.

(** [Math.max(...a)] on counts and [a.indexOf(v)]. *)
Definition maxOf (a : list nat) : nat := fold_left Nat.max a 0%nat.
Fixpoint indexOf (v : nat) (a : list nat) : Z :=
  match a with
  | [] => (-1)%Z
  | x :: r =>
      if Nat.eqb x v then 0%Z
      else let k := indexOf v r in if (k <? 0)%Z then (-1)%Z else (k + 1)%Z
  end.

(** What [toDateString()] prints: the local calendar day, or the text
    [Invalid Date]. *)
Inductive DateString : Type :=
| DayString (day : Z)        (* days since 1 January 1970, local time *)
| InvalidDateString.

Definition DateString_eqb (a b : DateString) : bool :=
  match a, b with
  | DayString x, DayString y => Z.eqb x y
  | InvalidDateString, InvalidDateString => true
  | _, _ => false
  end.

(** [new Set(keys)]: the distinct keys, in order of first insertion. *)
Definition Set_add (set : list DateString) (k : DateString) : list DateString :=
  if existsb (DateString_eqb k) set then set else set ++ [k].
Definition new_Set (keys : list DateString) : list DateString :=
  fold_left Set_add keys [].

(** [a.sort((x, y) => x - y)] on Dates, as a stable insertion sort: [x]
    moves past [y] when [x - y > 0].  On valid dates every sort gives this
    list. *)
Fixpoint sort_insert (x : Date) (l : list Date) : list Date :=
  match l with
  | [] => [x]
  | y :: r =>
      if (getTime x - getTime y) >? $0 then y :: sort_insert x r
      else x :: l
  end.
Definition sort (l : list Date) : list Date := fold_right sort_insert [] l.

(** The streak loop, entered with [allDates[i - 1] = prev] and
    [rest = allDates.slice(i)]. *)
Fixpoint streakLoop (prev : Date) (rest : list Date)
         (maxStreak curStreak : nat) : nat :=
  match rest with
  | [] => maxStreak
  | d :: rest' =>
      let diff := (getTime d - getTime prev) / $86400000 in
      if diff === $1 then
        let curStreak := S curStreak in
        streakLoop d rest'
          (if (maxStreak <? curStreak)%nat then curStreak else maxStreak)
          curStreak
      else streakLoop d rest' maxStreak 1%nat
  end.

Definition msPerHour : Z := 3600000.
Definition msPerDay : Z := 86400000.

(** The days, counted from 1 January 1970, of 1 January 0100 and of
    31 December 9999. *)
Definition firstParsedDay : Z := -683003.
Definition lastParsedDay : Z := 2932896.

Section LocalTime.

(** The host's time zone: [tz t] is the offset (ms) of local time from UTC
    at the instant [t], [tzAtLocal l] the offset in force at the local
    time [l]. *)
Variable tz : Z -> Z.
Variable tzAtLocal : Z -> Z.

(** What the host's date parser makes of the text that [toDateString]
    prints for a day outside the years 100 to 9999 (a valid Date on some
    other day, or the Invalid Date): [parseLegacy day]. *)
Variable parseLegacy : Z -> Date.

Definition LocalTime (t : Z) : Z := (t + tz t)%Z.
Definition UTC (l : Z) : Z := (l - tzAtLocal l)%Z.

(** [d.getHours()], [d.getDay()]; [None] stands for NaN. *)
Definition getHours (d : Date) : option nat :=
  match d with
  | ValidDate t => Some (Z.to_nat ((LocalTime t / msPerHour) mod 24))
  | InvalidDate => None
  end.
Definition getDay (d : Date) : option nat :=
  match d with
  | ValidDate t => Some (Z.to_nat ((LocalTime t / msPerDay + 4) mod 7))
  | InvalidDate => None
  end.

(** [d.toDateString()] *)
Definition toDateString (d : Date) : DateString :=
  match d with
  | ValidDate t => DayString (LocalTime t / msPerDay)
  | InvalidDate => InvalidDateString
  end.

(** [new Date(str)] on a string printed by [toDateString]: local midnight
    of that day when its year has four digits and is not below 100; before
    (two-digit and negative years) and after, the parser reads something
    else or nothing. *)
Definition Date_parse (str : DateString) : Date :=
  match str with
  | DayString day =>
      if (firstParsedDay <=? day)%Z && (day <=? lastParsedDay)%Z
      then ValidDate (UTC (day * msPerDay))
      else parseLegacy day
  | InvalidDateString => InvalidDate
  end.

Definition count_hours (sessions : list Session) : list nat :=
  fold_left (fun b s => bump_at (getHours (start s)) b) sessions (repeat 0%nat 24).
Definition count_days (sessions : list Session) : list nat :=
  fold_left (fun b s => bump_at (getDay (start s)) b) sessions (repeat 0%nat 7).

Definition computeStats (sessions : list Session) : option Stats :=
  if (List.length sessions =? 0)%nat then None else
  let totalSessions := List.length sessions in
  let totalHours := sumHours sessions in
  (* Hour distribution *)
  let hourBuckets := count_hours sessions in
  let nightPct :=
    JS.of_nat (sum (slice 0 5 hourBuckets) + sum (slice_from 22 hourBuckets))
    / JS.of_nat totalSessions in
  let morningPct := JS.of_nat (sum (slice 5 9 hourBuckets)) / JS.of_nat totalSessions in
  let afternoonPct := JS.of_nat (sum (slice 9 17 hourBuckets)) / JS.of_nat totalSessions in
  let eveningPct := JS.of_nat (sum (slice 17 22 hourBuckets)) / JS.of_nat totalSessions in
  (* Day distribution *)
  let dayBuckets := count_days sessions in
  let weekdayTotal := JS.of_nat (sum (slice 1 6 dayBuckets)) / $5 in
  let weekendTotal := JS.of_nat (nth 0 dayBuckets 0 + nth 6 dayBuckets 0)%nat / $2 in
  let weekendRatio := if weekdayTotal >? $0 then weekendTotal / weekdayTotal else $0 in
  (* Active days & streak *)
  let daySet := new_Set (map (fun s => toDateString (start s)) sessions) in
  let activeDays := List.length daySet in
  let allDates := sort (map Date_parse daySet) in
  let firstDate := hd InvalidDate allDates in
  let lastDate := last allDates InvalidDate in
  let totalDays := JS.ceil ((getTime lastDate - getTime firstDate) / $86400000) + $1 in
  let maxStreak :=
    match allDates with
    | [] => 1%nat
    | d :: rest => streakLoop d rest 1 1
    end in
  let avgSessionHours := totalHours / JS.of_nat totalSessions in
  Some {|
    totalSessions := totalSessions;
    totalHours := totalHours;
    activeDays := activeDays;
    totalDays := totalDays;
    maxStreak := maxStreak;
    nightPct := nightPct;
    morningPct := morningPct;
    afternoonPct := afternoonPct;
    eveningPct := eveningPct;
    weekendRatio := weekendRatio;
    avgSessionHours := avgSessionHours;
    hourBuckets := hourBuckets;
    dayBuckets := dayBuckets;
    projectCount := 0;                       (* filled later *)
    peakHour := indexOf (maxOf hourBuckets) hourBuckets;
  |}.

(** ** Determine archetype ([getArchetype]) *)

(** The template literal prints the streak in decimal. *)
Definition string_of_nat (n : nat) : string :=
  NilEmpty.string_of_uint (Nat.to_uint n).

Definition machineArchetype (stats : Stats) : Archetype := {|
  id := "machine";
  name := "🤖 The Unstoppable Machine";
  jp := "不滅の機械";
  tagline := quoted "Rest days are a human concept.";
  condition := Some (fun s => JS.of_nat (maxStreak s) >=? $30);
  description :=
    (string_of_nat (maxStreak stats)
     ++ " consecutive days of coding. You simply don't stop.")%string;
|}.

Definition balanced : Archetype := {|
  id := "balanced";
  name := "⚖️ The Balanced Developer";
  jp := "バランス型開発者";
  tagline := quoted "Sustainable velocity wins the race.";
  condition := None;
  description := "You code consistently without burning out. Rare and admirable.";
|}.

(** [archetype.condition(stats)] as the test of an [if]. *)
Definition holds (archetype : Archetype) (stats : Stats) : bool :=
  match condition archetype with
  | Some c => c stats
  | None => false
  end.

(** [for (const archetype of allArchetypes) if (...) return archetype;]
    [None] when the loop runs to its end. *)
Fixpoint scanArchetypes (allArchetypes : list Archetype) (stats : Stats)
  : option Archetype :=
  match allArchetypes with
  | [] => None
  | archetype :: rest =>
      if holds archetype stats then Some archetype
      else scanArchetypes rest stats
  end.

Definition getArchetype (stats : Stats) : Archetype :=
  let allArchetypes :=
    map (fun a => if String.eqb (id a) "machine" then machineArchetype stats else a)
        ARCHETYPES in
  match scanArchetypes allArchetypes stats with
  | Some archetype => archetype
  | None => balanced                                         (* Default *)
  end.

(** ** Main *)

(** How [main] ends, before any rendering. *)
Inductive Outcome : Type :=
| ExitNoSessions                      (* message, then process.exit(1) *)
| ExitError                           (* a throw, caught by main().catch *)
| Report (stats : Stats) (archetype : Archetype).

(** [main] from [sessions.length === 0] down to [getArchetype(stats)];
    [projectCount] is [dirs.length], or 0 when the directory cannot be
    read. *)
Definition main_after_scan (sessions : list Session) (projectCount : nat)
  : Outcome :=
  if (List.length sessions =? 0)%nat then ExitNoSessions else
  match computeStats sessions with
  | None => ExitError                 (* assignment to a property of null *)
  | Some stats =>
      let stats := set_projectCount stats projectCount in
      let archetype := getArchetype stats in
      Report stats archetype
  end.

Definition main (files : list RawObservation) (projectCount : nat) : Outcome :=
  main_after_scan (scanSessions files) projectCount.

End LocalTime.

Close Scope js_scope.

(** ** File reading ([readFirstLastLine]) *)

(** Text is kept as the UTF-8 bytes of the JavaScript string.  The byte 10
    occurs in them only as the line feed, so [indexOf('\n')] and
    [split('\n')] cut at the same places. *)
Definition LF : ascii := ascii_of_nat 10.

(** [s.indexOf('\n')], -1 when there is none. *)
Fixpoint indexOf_LF (s : string) : Z :=
  match s with
  | EmptyString => (-1)%Z
  | String c r =>
      if Ascii.eqb c LF then 0%Z
      else let k := indexOf_LF r in if (k <? 0)%Z then (-1)%Z else (k + 1)%Z
  end.

(** [s.substring(0, n)] *)
Fixpoint substring0 (n : nat) (s : string) : string :=
  match n, s with
  | S n', String c r => String c (substring0 n' r)
  | _, _ => EmptyString
  end.

(** [s.split('\n')]: always at least one piece. *)
Fixpoint split_LF (s : string) : list string :=
  match s with
  | EmptyString => [EmptyString]
  | String c r =>
      if Ascii.eqb c LF then EmptyString :: split_LF r
      else match split_LF r with
           | piece :: pieces => String c piece :: pieces
           | [] => [String c EmptyString]
           end
  end.

(** The three-byte encodings of the white space above U+00FF that
    [trim()] removes: U+1680, U+2000..U+200A, U+2028, U+2029, U+202F,
    U+205F, U+3000 and U+FEFF. *)
Definition white3 (b1 b2 b3 : nat) : bool :=
  ((b1 =? 225) && (b2 =? 154) && (b3 =? 128))
  || ((b1 =? 226) && (b2 =? 128)
      && (((128 <=? b3) && (b3 <=? 138)) || (b3 =? 168) || (b3 =? 169)
          || (b3 =? 175)))
  || ((b1 =? 226) && (b2 =? 129) && (b3 =? 159))
  || ((b1 =? 227) && (b2 =? 128) && (b3 =? 128))
  || ((b1 =? 239) && (b2 =? 187) && (b3 =? 191)).

(** [l.trim() === ''] : the line holds white space and line terminators
    only (tab, LF, VT, FF, CR, space, U+00A0 and the ones of [white3]). *)
Fixpoint blank (l : string) : bool :=
  match l with
  | EmptyString => true
  | String c1 r1 =>
      let b1 := nat_of_ascii c1 in
      if ((9 <=? b1) && (b1 <=? 13)) || (b1 =? 32) then blank r1
      else
        match r1 with
        | EmptyString => false
        | String c2 r2 =>
            let b2 := nat_of_ascii c2 in
            if (b1 =? 194) && (b2 =? 160) then blank r2
            else
              match r2 with
              | EmptyString => false
              | String c3 r3 =>
                  if white3 b1 b2 (nat_of_ascii c3) then blank r3 else false
              end
        end
  end.

(** What the two reads of a file delivered: the number of bytes of the
    first read and its decoded text, the size of the file and the decoded
    text of its last 64 KiB. *)
Record FileRead : Type := mkFileRead {
  firstBytes : nat;
  firstChunk : string;
  fileSize : nat;
  tailChunk : string;
}.

(** [readFirstLastLine], from the decoded chunks on; [None] is [null]. *)
Definition readFirstLastLine (f : FileRead) : option (string * string) :=
  if (firstBytes f =? 0)%nat then None else
  let firstNewline := indexOf_LF (firstChunk f) in
  let firstLine :=
    if (0 <=? firstNewline)%Z
    then substring0 (Z.to_nat firstNewline) (firstChunk f)
    else firstChunk f in
  if (fileSize f <? 2)%nat then Some (firstLine, firstLine) else
  let lines := filter (fun l => negb (blank l)) (split_LF (tailChunk f)) in
  let lastLine :=
    match List.rev lines with
    | l :: _ => if String.eqb l EmptyString then firstLine else l (* l || firstLine *)
    | [] => firstLine                                       (* undefined *)
    end in
  Some (firstLine, lastLine).

(** ** Render ([renderHourBar], the time-of-day line of [main]) *)

Module C.
Definition esc : string := String (ascii_of_nat 27) EmptyString.
Definition reset : string := (esc ++ "[0m")%string.
Definition dim : string := (esc ++ "[2m")%string.
Definition green : string := (esc ++ "[32m")%string.
Definition yellow : string := (esc ++ "[33m")%string.
Definition blue : string := (esc ++ "[34m")%string.
Definition magenta : string := (esc ++ "[35m")%string.
End C.

Open Scope js_scope.

(** [Math.round(a)]: the nearest integer, a tie going up. *)
Definition Math_round (a : JS.num) : JS.num :=
  match a with
  | JS.Fin q => JS.of_Z (Qfloor (q + (1 # 2)))
  | _ => a
  end.

(** [Math.max(...a)] on an array of counts; -Infinity for the empty one. *)
Definition Math_max (a : list nat) : JS.num :=
  fold_left (fun m v => JS.max m (JS.of_nat v)) a JS.NInf.

(** [a[i]] for a number [i]: [None] ([undefined]) unless [i] is a
    non-negative integer below the length. *)
Definition array_get {A : Type} (a : list A) (i : JS.num) : option A :=
  match i with
  | JS.Fin q =>
      if Qle_bool 0 q && Qeq_bool (inject_Z (Qfloor q)) q
      then nth_error a (Z.to_nat (Qfloor q)) else None
  | _ => None
  end.

(** A value inside a template literal, and as an element for [join]. *)
Definition in_template (v : option string) : string :=
  match v with Some s => s | None => "undefined"%string end.
Definition in_join (v : option string) : string :=
  match v with Some s => s | None => EmptyString end.

Definition blocks : list string :=
  [ "▁"; "▂"; "▃"; "▄"; "▅"; "▆"; "▇"; "█" ]%string.

(** [Math.round((v / max) * 7)] *)
Definition barLevel (max : JS.num) (v : nat) : JS.num :=
  Math_round ((JS.of_nat v / max) * $7).

(** The callback of [buckets.map((v, h) => ...)]. *)
Definition hourCell (max : JS.num) (peakHour : Z) (v : nat) (h : nat)
  : option string :=
  let level := barLevel max v in
  let block := array_get blocks level in
  if (Z.of_nat h =? peakHour)%Z
  then Some (C.yellow ++ in_template block ++ C.reset)%string
  else if (0 <=? h)%nat && (h <=? 4)%nat
       then Some (C.dim ++ in_template block ++ C.reset)%string
       else block.

(** [a.map((v, h) => f(v, h))], the index starting at [h]. *)
Fixpoint mapi_from {A B : Type} (f : A -> nat -> B) (h : nat) (a : list A)
  : list B :=
  match a with
  | [] => []
  | v :: r => f v h :: mapi_from f (S h) r
  end.

Definition renderHourBar (buckets : list nat) (peakHour : Z) : string :=
  let max := Math_max buckets in
  if max === $0 then EmptyString else
  String.concat EmptyString (map in_join (mapi_from (hourCell max peakHour) 0 buckets)).

Section TimeLabel.

(** [pct(n)] prints [Math.round(n * 100)] and a percent sign; how a number
    prints is left to the host. *)
Variable pct : JS.num -> string.

(** The [timeLabel] of [main]. *)
Definition timeLabel (stats : Stats) : string :=
  if nightPct stats >=? $0.25 then
    (C.blue ++ "🌙 Night owl (" ++ pct (nightPct stats) ++ " night sessions)"
     ++ C.reset)%string
  else if morningPct stats >=? $0.30 then
    (C.yellow ++ "🌅 Early bird (" ++ pct (morningPct stats)
     ++ " morning sessions)" ++ C.reset)%string
  else if eveningPct stats >=? $0.40 then
    (C.magenta ++ "🌆 Evening coder (" ++ pct (eveningPct stats) ++ " evening)"
     ++ C.reset)%string
  else
    (C.green ++ "☀️ Day coder (" ++ pct (afternoonPct stats) ++ " afternoon)"
     ++ C.reset)%string.

End TimeLabel.

Close Scope js_scope.

(** ** Well-formed sessions *)

(** A session whose start is a valid Date, as every session that
    [scanSessions] pushes is (lemma [scanSessions_valid_start]). *)
Definition valid_start (s : Session) : Prop := start s <> InvalidDate.

(** A session that starts at a valid Date whose local day lies in the
    years 100 to 9999, the days that [Date_parse] reads back. *)
Definition parsed_start (tz : Z -> Z) (s : Session) : Prop :=
  match start s with
  | ValidDate t =>
      (firstParsedDay <= LocalTime tz t / msPerDay <= lastParsedDay)%Z
  | InvalidDate => False
  end.

(** A file whose timestamps, where valid, are time values a Date can hold. *)
Definition obs_in_range (o : RawObservation) : Prop :=
  match firstTimestamp o with
  | Some st => date_in_range st /\ date_in_range (endTime_of o st)
  | None => True
  end.

(** ** The specification's reading of the long-span policy *)

(** The start instant the specification gives the [i]-th of [numSubs]
    sub-sessions of a file spanning [s .. e]:
    [start + (i / numSubs) * (end - start)], as a rational number of
    milliseconds. *)
Definition claimed_subStart (s e : Z) (i numSubs : nat) : Q :=
  inject_Z s
  + inject_Z (Z.of_nat i) / inject_Z (Z.of_nat numSubs) * (inject_Z e - inject_Z s).

(** ** Sample data *)

(** The zone of a host running on UTC. *)
Definition utc : Z -> Z := fun _ => 0%Z.

(** A host whose parser rejects the dates outside the years 100 to 9999. *)
Definition rejecting : Z -> Date := fun _ => InvalidDate.

(** Five one-hour sessions at 02:00 on five consecutive days (1 to 5
    January 1970) and one at 15:00 a week later. *)
Definition sample_sessions : list Session :=
  map (fun t => mkSession (ValidDate t) (ValidDate t) (JS.Fin 1))
      [ 7200000; 93600000; 180000000; 266400000; 352800000; 1004400000 ]%Z.

(** Three files: half an hour on 1 January 1970, a single timestamp on the
    2nd and four hours on the 3rd. *)
Definition sample_files : list RawObservation :=
  [ mkObs (Some (ValidDate 7200000)) (Some (ValidDate 9000000));
    mkObs (Some (ValidDate 93600000)) None;
    mkObs (Some (ValidDate 180000000)) (Some (ValidDate 194400000)) ].

(** * Properties *)

(** ** Arithmetic on rationals and on [JS.num] *)

Lemma Qle_bool_false_iff (x y : Q) : Qle_bool x y = false <-> y < x.
Proof.
  split; intro H.
  - apply Qnot_le_lt. intro Hle. apply Qle_bool_iff in Hle. congruence.
  - destruct (Qle_bool x y) eqn:E; [|reflexivity].
    apply Qle_bool_iff in E. exfalso. apply (Qlt_not_le _ _ H E).
Qed.

Lemma Qeq_bool_false_iff (x y : Q) : Qeq_bool x y = false <-> ~ x == y.
Proof.
  split; intro H.
  - intro E. apply Qeq_bool_iff in E. congruence.
  - destruct (Qeq_bool x y) eqn:E; [|reflexivity].
    apply Qeq_bool_iff in E. contradiction.
Qed.

Lemma div_Fin (x y : Q) : ~ y == 0 -> JS.div (JS.Fin x) (JS.Fin y) = JS.Fin (x / y).
Proof.
  intro H. unfold JS.div, JS.Qzero_b.
  apply Qeq_bool_false_iff in H. now rewrite H.
Qed.

Lemma inject_Z_of_nat_S (n : nat) :
  inject_Z (Z.of_nat (S n)) == inject_Z (Z.of_nat n) + 1.
Proof. rewrite Nat2Z.inj_succ. unfold Z.succ. now rewrite inject_Z_plus. Qed.

Lemma inject_Z_le (a b : Z) : (a <= b)%Z -> inject_Z a <= inject_Z b.
Proof. intro H. now rewrite <- Zle_Qle. Qed.

Lemma inject_Z_lt (a b : Z) : (a < b)%Z -> inject_Z a < inject_Z b.
Proof. intro H. now rewrite <- Zlt_Qlt. Qed.

(** Truncation towards zero stays between zero and its argument. *)
Lemma Qtrunc_bounds (q : Q) (m : Z) :
  - inject_Z m <= q <= inject_Z m -> (- m <= JS.Qtrunc q <= m)%Z.
Proof.
  destruct q as [n d]. unfold JS.Qtrunc, Qle, inject_Z. simpl.
  intros [Hlo Hhi].
  assert (Hd : (0 < Z.pos d)%Z) by lia.
  destruct (Z_lt_le_dec n 0) as [Hn | Hn].
  - assert (H1 : (n <= Z.quot n (Z.pos d) * Z.pos d)%Z).
    { pose proof (Z.mul_quot_le n (Z.pos d)) as H.
      pose proof (Z.quot_rem' n (Z.pos d)) as E.
      pose proof (Z.rem_nonpos n (Z.pos d)) as R. lia. }
    assert (H2 : (Z.quot n (Z.pos d) <= 0)%Z).
    { apply Z.quot_le_upper_bound; lia. }
    nia.
  - assert (H1 : (Z.quot n (Z.pos d) * Z.pos d <= n)%Z).
    { pose proof (Z.mul_quot_le n (Z.pos d)). lia. }
    assert (H2 : (0 <= Z.quot n (Z.pos d))%Z) by (apply Z.quot_pos; lia).
    nia.
Qed.

(** Whatever number it is built from, a Date holds a time value in range. *)
Lemma new_Date_in_range (v : JS.num) : date_in_range (new_Date v).
Proof.
  destruct v as [q| | |]; cbn; try exact I.
  destruct (Qle_bool (Qabs q) (inject_Z maxTimeValue)) eqn:E; [|exact I].
  apply Qle_bool_iff, Qabs_Qle_condition in E.
  unfold date_in_range. now apply Qtrunc_bounds.
Qed.

(** ** Session reconstruction *)

Lemma durationHours_valid (s e : Z) :
  durationHours (ValidDate s) (ValidDate e)
  = JS.Fin ((inject_Z e - inject_Z s) / 3600000).
Proof. reflexivity. Qed.

Lemma durationHours_Fin_inv (st en : Date) (d : Q) :
  durationHours st en = JS.Fin d ->
  exists s e, st = ValidDate s /\ en = ValidDate e
              /\ d = (inject_Z e - inject_Z s) / 3600000.
Proof.
  destruct st as [s|], en as [e|]; cbn; try discriminate.
  intro H. injection H as <-. now exists s, e.
Qed.

(** The span of two Dates is a finite number or NaN. *)
Lemma durationHours_Fin_or_NaN (st en : Date) :
  (exists d, durationHours st en = JS.Fin d) \/ durationHours st en = JS.NaN.
Proof. destruct st, en; cbn; eauto. Qed.

Lemma short_test (d : Q) :
  JS.ltb (JS.Fin d) (JS.mul SESSION_GAP_HOURS (JS.Fin 2)) = true <-> d < 1.
Proof.
  cbn. rewrite negb_true_iff, Qle_bool_false_iff.
  split; intro H; [eapply Qlt_le_trans | eapply Qlt_le_trans]; eauto;
    unfold Qle; simpl; lia.
Qed.

Lemma short_test_false (d : Q) :
  JS.ltb (JS.Fin d) (JS.mul SESSION_GAP_HOURS (JS.Fin 2)) = false <-> 1 <= d.
Proof.
  cbn. rewrite negb_false_iff, Qle_bool_iff.
  split; intro H; [eapply Qle_trans | eapply Qle_trans]; eauto;
    unfold Qle; simpl; lia.
Qed.

(** On a span of at least one hour the number of sub-sessions is the
    integer [ceil(d / 2)], which is at least 1. *)
Lemma numSubs_long (d : Q) :
  1 <= d ->
  (1 <= Qceiling (d / 2))%Z
  /\ numSubs_of (JS.Fin d) = JS.Fin (inject_Z (Qceiling (d / 2))).
Proof.
  intro Hd.
  assert (Hc : (1 <= Qceiling (d / 2))%Z).
  { assert (H : (0 < Qceiling (d / 2))%Z); [|lia].
    rewrite Zlt_Qlt. eapply Qlt_le_trans; [|apply Qle_ceiling].
    change (inject_Z 0) with 0. apply Qlt_shift_div_l; lra. }
  split; [exact Hc|].
  unfold numSubs_of. cbn.
  assert (E : Qle_bool 1 (inject_Z (Qceiling (d / 2))) = true).
  { apply Qle_bool_iff. now apply (inject_Z_le 1). }
  now rewrite E.
Qed.

Lemma numSubs_not_PInf (st en : Date) :
  numSubs_of (durationHours st en) <> JS.PInf.
Proof.
  destruct (durationHours_Fin_or_NaN st en) as [[d ->] | ->]; [|discriminate].
  unfold numSubs_of. cbn.
  destruct (Qle_bool 1 (inject_Z (Qceiling (d / 2)))); discriminate.
Qed.

(** The sessions of a file with a span of at least one hour. *)
Lemma scanFile_long (o : RawObservation) (s e : Z) :
  firstTimestamp o = Some (ValidDate s) ->
  endTime_of o (ValidDate s) = ValidDate e ->
  let d := (inject_Z e - inject_Z s) / 3600000 in
  let c := Qceiling (d / 2) in
  1 <= d ->
  scanFile o
  = map (fun i =>
           let subStart :=
             new_Date (JS.Fin (inject_Z s
                               + inject_Z (Z.of_nat i) / inject_Z c
                                 * (inject_Z e - inject_Z s))) in
           mkSession subStart subStart (JS.Fin (d / inject_Z c)))
        (seq 0 (Z.to_nat c)).
Proof.
  intros Hs He d c Hd.
  destruct (numSubs_long d Hd) as [Hc Hn]. fold c in Hn.
  assert (Hc0 : ~ inject_Z c == 0).
  { intro E. unfold Qeq in E. simpl in E. unfold c in E. lia. }
  unfold scanFile. rewrite Hs, He. cbv zeta.
  rewrite durationHours_valid. fold d.
  assert (T : JS.ltb (JS.Fin d) (JS.mul SESSION_GAP_HOURS (JS.Fin 2)) = false)
    by now apply short_test_false.
  rewrite T, Hn. unfold for_lt. rewrite Qceiling_Z.
  apply map_ext. intro i.
  unfold JS.of_nat, JS.of_Z. rewrite !div_Fin by assumption. reflexivity.
Qed.

(** The session of a file with a span below one hour. *)
Lemma scanFile_short (o : RawObservation) (st : Date) (d : Q) :
  firstTimestamp o = Some st ->
  durationHours st (endTime_of o st) = JS.Fin d ->
  d < 1 ->
  scanFile o
  = [ mkSession st (endTime_of o st)
                (JS.Fin (if Qle_bool d 0.01 then 0.01 else d)) ].
Proof.
  intros Hs Hd Hlt. unfold scanFile. rewrite Hs. cbv zeta. rewrite Hd.
  rewrite (proj2 (short_test d) Hlt). cbn.
  now destruct (Qle_bool d 0.01).
Qed.

Lemma scanSessions_flat_map (files : list RawObservation) :
  scanSessions files = flat_map scanFile files.
Proof.
  unfold scanSessions.
  assert (G : forall acc, fold_left (fun sessions o => sessions ++ scanFile o) files acc
                          = acc ++ flat_map scanFile files).
  { induction files as [|o files IH]; intro acc; simpl.
    - now rewrite app_nil_r.
    - now rewrite IH, app_assoc. }
  apply G.
Qed.

(** An interpolated instant lies between the two ends. *)
Lemma interpolation_between (s e : Z) (i c : Z) :
  (s <= e)%Z -> (0 <= i < c)%Z ->
  inject_Z s
  <= inject_Z s + inject_Z i / inject_Z c * (inject_Z e - inject_Z s)
  <= inject_Z e.
Proof.
  intros Hse [Hi Hic].
  assert (Hc : 0 < inject_Z c) by (apply (inject_Z_lt 0); lia).
  assert (Hr0 : 0 <= inject_Z i / inject_Z c).
  { apply Qle_shift_div_l; [exact Hc|]. rewrite Qmult_0_l. apply (inject_Z_le 0); lia. }
  assert (Hr1 : inject_Z i / inject_Z c <= 1).
  { apply Qle_shift_div_r; [exact Hc|]. rewrite Qmult_1_l. apply inject_Z_le; lia. }
  assert (Hw : 0 <= inject_Z e - inject_Z s).
  { apply inject_Z_le in Hse. lra. }
  set (r := inject_Z i / inject_Z c) in *.
  set (w := inject_Z e - inject_Z s) in *.
  assert (P1 : 0 <= r * w) by (apply Qmult_le_0_compat; assumption).
  assert (P2 : 0 <= (1 - r) * w) by (apply Qmult_le_0_compat; lra).
  assert (E : (1 - r) * w == w - r * w) by ring.
  rewrite E in P2. unfold w in *. split; lra.
Qed.

Lemma span_nonneg (s e : Z) :
  1 <= (inject_Z e - inject_Z s) / 3600000 -> (s < e)%Z.
Proof.
  intro H.
  assert (E : inject_Z e - inject_Z s
              == (inject_Z e - inject_Z s) / 3600000 * 3600000) by (field; discriminate).
  assert (K : 1 * 3600000 <= (inject_Z e - inject_Z s) / 3600000 * 3600000).
  { apply Qmult_le_compat_r; [exact H | discriminate]. }
  rewrite <- E in K. rewrite Zlt_Qlt. lra.
Qed.

(** In the long-span branch every interpolated instant is a valid Date:
    the whole milliseconds of the interpolation. *)
Lemma subStart_valid (s e c : Z) (i : nat) :
  (- maxTimeValue <= s)%Z -> (e <= maxTimeValue)%Z -> (s <= e)%Z ->
  (Z.of_nat i < c)%Z ->
  let x := inject_Z s + inject_Z (Z.of_nat i) / inject_Z c * (inject_Z e - inject_Z s) in
  new_Date (JS.Fin x) = ValidDate (JS.Qtrunc x).
Proof.
  intros Hs He Hse Hi x.
  destruct (interpolation_between s e (Z.of_nat i) c Hse) as [Hlo Hhi]; [lia|].
  fold x in Hlo, Hhi.
  unfold new_Date.
  assert (B : Qle_bool (Qabs x) (inject_Z maxTimeValue) = true).
  { apply Qle_bool_iff, Qabs_Qle_condition. split.
    - apply Qle_trans with (inject_Z s); [|exact Hlo].
      rewrite <- inject_Z_opp. now apply inject_Z_le.
    - apply Qle_trans with (inject_Z e); [exact Hhi|]. now apply inject_Z_le. }
  now rewrite B.
Qed.

(** Adding up sessions that all carry the same finite duration. *)
Lemma fold_hours_const (l : list Session) (h : Q) :
  Forall (fun x => hours x = JS.Fin h) l ->
  forall a, exists r,
    fold_left (fun acc x => JS.add acc (hours x)) l (JS.Fin a) = JS.Fin r
    /\ r == a + inject_Z (Z.of_nat (List.length l)) * h.
Proof.
  induction 1 as [|x l Hx _ IH]; intro a; simpl fold_left.
  - exists a. split; [reflexivity|]. simpl. ring.
  - rewrite Hx. cbn [JS.add].
    destruct (IH (a + h)) as [r [Er Hr]]. exists r. split; [exact Er|].
    rewrite Hr. cbn [List.length]. rewrite inject_Z_of_nat_S. ring.
Qed.

(** The floor of 0.01 hours in the long-span branch: [d / ceil(d / 2)] is
    above it as soon as [d >= 1]. *)
Lemma long_hours_floor (d : Q) :
  1 <= d -> 0.01 <= d / inject_Z (Qceiling (d / 2)).
Proof.
  intro Hd. destruct (numSubs_long d Hd) as [Hc _].
  assert (Hc' : 0 < inject_Z (Qceiling (d / 2))) by (apply (inject_Z_lt 0); lia).
  pose proof (Qceiling_lt (d / 2)) as Hlt.
  unfold Z.sub in Hlt. rewrite inject_Z_plus, inject_Z_opp in Hlt.
  change (inject_Z 1) with 1 in Hlt.
  assert (E : d / 2 == d * (1 # 2)) by field.
  set (k := inject_Z (Qceiling (d / 2))) in *.
  apply Qle_shift_div_l; [exact Hc'|]. lra.
Qed.

Lemma scanFile_hours_floor (o : RawObservation) (x : Session) :
  In x (scanFile o) -> exists h, hours x = JS.Fin h /\ 0.01 <= h.
Proof.
  unfold scanFile. destruct (firstTimestamp o) as [st|] eqn:Hs; [|intros []].
  cbv zeta.
  destruct (durationHours_Fin_or_NaN st (endTime_of o st)) as [[d Hd] | Hn].
  - destruct (Qlt_le_dec d 1) as [Hlt | Hge].
    + rewrite Hd, (proj2 (short_test d) Hlt). cbn.
      intros [<- | []]. cbn.
      destruct (Qle_bool d 0.01) eqn:E; eexists; split; try reflexivity.
      * apply Qle_refl.
      * apply Qle_bool_false_iff in E. now apply Qlt_le_weak.
    + destruct (durationHours_Fin_inv _ _ _ Hd) as (s & e & -> & He & Ed).
      intro Hin.
      assert (L := scanFile_long o s e Hs He). cbv zeta in L.
      rewrite <- Ed in L. specialize (L Hge).
      unfold scanFile in L. rewrite Hs in L. cbv zeta in L. rewrite L in Hin.
      apply in_map_iff in Hin. destruct Hin as (i & <- & _). cbn.
      eexists; split; [reflexivity|]. now apply long_hours_floor.
  - rewrite Hn. cbn. intros [].
Qed.

(** C3. A file whose raw span [durationHours] is below one hour
    ([2 * SESSION_GAP_HOURS]) yields exactly one session; its start and end
    are the two timestamps of the file and its duration is
    [max(durationHours, 0.01)], so at least 0.01. *)
Theorem short_span_one_session (o : RawObservation) (st : Date) (d : Q) :
  firstTimestamp o = Some st ->
  durationHours st (endTime_of o st) = JS.Fin d ->
  d < 1 ->
  JS.num_eq (JS.mul SESSION_GAP_HOURS (JS.Fin 2)) (JS.Fin 1)
  /\ exists h,
       scanFile o = [ mkSession st (endTime_of o st) (JS.Fin h) ]
       /\ h == Qmax d 0.01 /\ 0.01 <= h.
Proof.
  intros Hs Hd Hlt. split; [reflexivity|].
  rewrite (scanFile_short o st d Hs Hd Hlt).
  eexists; split; [reflexivity|].
  destruct (Qle_bool d 0.01) eqn:E.
  - apply Qle_bool_iff in E. split; [|apply Qle_refl].
    symmetry. now apply Q.max_r.
  - apply Qle_bool_false_iff in E. apply Qlt_le_weak in E. split; [|exact E].
    symmetry. now apply Q.max_l.
Qed.

Lemma short_span_one_session_witness :
  let o := mkObs (Some (ValidDate 1000)) (Some (ValidDate 1801000)) in
  exists h,
    scanFile o = [ mkSession (ValidDate 1000) (ValidDate 1801000) (JS.Fin h) ]
    /\ h == Qmax ((inject_Z 1801000 - inject_Z 1000) / 3600000) 0.01
    /\ 0.01 <= h.
Proof.
  intro o.
  apply (short_span_one_session o (ValidDate 1000)
           ((inject_Z 1801000 - inject_Z 1000) / 3600000)).
  - reflexivity.
  - reflexivity.
  - reflexivity.
Defined.

(** C10. When the last timestamp of a file is strictly earlier than the
    first one, the raw span is negative, the short-span branch is taken and
    the file yields exactly one session, of exactly 0.01 hours, whose start
    and end are the two timestamps as given. *)
Theorem negative_span_session (o : RawObservation) (s e : Z) :
  firstTimestamp o = Some (ValidDate s) ->
  lastTimestamp o = Some (ValidDate e) ->
  (e < s)%Z ->
  (exists d, durationHours (ValidDate s) (ValidDate e) = JS.Fin d /\ d < 0)
  /\ scanFile o = [ mkSession (ValidDate s) (ValidDate e) (JS.Fin 0.01) ].
Proof.
  intros Hs He Hlt.
  set (d := (inject_Z e - inject_Z s) / 3600000).
  assert (Hd : d < 0).
  { unfold d. apply Qlt_shift_div_r; [reflexivity|].
    apply inject_Z_lt in Hlt. lra. }
  split; [exists d; split; [reflexivity | exact Hd]|].
  assert (Het : endTime_of o (ValidDate s) = ValidDate e)
    by (unfold endTime_of; now rewrite He).
  rewrite (scanFile_short o (ValidDate s) d Hs); rewrite ?Het.
  - assert (E : Qle_bool d 0.01 = true) by (apply Qle_bool_iff; lra).
    now rewrite E.
  - reflexivity.
  - lra.
Qed.

Lemma negative_span_session_witness :
  scanFile (mkObs (Some (ValidDate 5000)) (Some (ValidDate 2000)))
  = [ mkSession (ValidDate 5000) (ValidDate 2000) (JS.Fin 0.01) ].
Proof.
  apply (negative_span_session
           (mkObs (Some (ValidDate 5000)) (Some (ValidDate 2000))) 5000 2000).
  - reflexivity.
  - reflexivity.
  - reflexivity.
Defined.

(** C9. Every session that reconstruction emits, from any list of files and
    in either branch, carries a finite duration of at least 0.01 hours. *)
Theorem session_hours_floor (files : list RawObservation) (x : Session) :
  In x (scanSessions files) ->
  exists h, hours x = JS.Fin h /\ 0.01 <= h.
Proof.
  rewrite scanSessions_flat_map. intro Hin.
  apply in_flat_map in Hin. destruct Hin as (o & _ & Hin).
  now apply (scanFile_hours_floor o).
Qed.

Lemma session_hours_floor_witness :
  exists h,
    hours (mkSession (ValidDate 7200000) (ValidDate 7200000)
                     (JS.Fin ((inject_Z 14400000 - inject_Z 0) / 3600000 / inject_Z 2)))
    = JS.Fin h /\ 0.01 <= h.
Proof.
  apply (session_hours_floor
           [ mkObs (Some (ValidDate 9)) None;
             mkObs (Some (ValidDate 0)) (Some (ValidDate 14400000)) ]).
  vm_compute. right. right. left. reflexivity.
Defined.

(** Truncation moves a number by less than one. *)
Lemma Qtrunc_near (q : Q) :
  inject_Z (JS.Qtrunc q) - 1 < q /\ q < inject_Z (JS.Qtrunc q) + 1.
Proof.
  destruct q as [n d]. unfold JS.Qtrunc, Qlt, inject_Z. simpl.
  pose proof (Z.quot_rem' n (Z.pos d)) as E.
  pose proof (Z.rem_bound_abs n (Z.pos d)) as B.
  assert (Hd : (Z.pos d <> 0)%Z) by lia. specialize (B Hd).
  set (k := Z.quot n (Z.pos d)) in *. set (r := Z.rem n (Z.pos d)) in *.
  split; nia.
Qed.

(** C2, as stated, fails on the start instants: a Date holds whole
    milliseconds.  A file spanning 3 h and 1 ms splits in two; the claimed
    start of the second sub-session is 5400000.5 ms, the Date that is stored
    is 5400000. *)
Lemma sub_session_start_not_exact :
  let o := mkObs (Some (ValidDate 0)) (Some (ValidDate 10800001)) in
  JS.geb (durationHours (ValidDate 0) (ValidDate 10800001)) (JS.Fin 1) = true
  /\ List.length (scanFile o) = 2%nat
  /\ option_map start (nth_error (scanFile o) 1) = Some (ValidDate 5400000)
  /\ claimed_subStart 0 10800001 1 2 == 5400000.5
  /\ ~ inject_Z 5400000 == claimed_subStart 0 10800001 1 2.
Proof.
  cbv zeta. repeat split; try reflexivity.
  intro H. vm_compute in H. discriminate.
Qed.

(** C2, amended. A file whose raw span [d = durationHours] is at least one
    hour yields exactly [ceil(d / 2)] sub-sessions.  The [i]-th one starts
    at a whole millisecond less than 5 ms away from
    [start + (i / numSubs) * (end - start)] (the expression is evaluated in
    floating point and the Date that holds it keeps whole milliseconds),
    ends at its own start and lasts [d / numSubs] hours; the durations add
    up to [d] within a relative tolerance of one millionth. *)
Theorem long_span_sub_sessions (o : RawObservation) (st : Date) (d : Q) :
  firstTimestamp o = Some st ->
  durationHours st (endTime_of o st) = JS.Fin d ->
  1 <= d ->
  date_in_range st -> date_in_range (endTime_of o st) ->
  exists s e,
    st = ValidDate s /\ endTime_of o st = ValidDate e /\
    let numSubs := Z.to_nat (Qceiling (d / 2)) in
    List.length (scanFile o) = numSubs
    /\ (forall i, (i < numSubs)%nat ->
          exists t h,
            nth_error (scanFile o) i
            = Some (mkSession (ValidDate t) (ValidDate t) (JS.Fin h))
            /\ Qabs (inject_Z t - claimed_subStart s e i numSubs) < 5
            /\ h == d / inject_Z (Z.of_nat numSubs))
    /\ exists total,
         sumHours (scanFile o) = JS.Fin total
         /\ Qabs (total - d) <= d * (1 # 1000000).
Proof.
  intros Hs Hd Hge Rs Re.
  destruct (durationHours_Fin_inv _ _ _ Hd) as (s & e & -> & He & Ed).
  rewrite He in Re. cbn in Rs, Re.
  exists s, e. split; [reflexivity|]. split; [exact He|]. cbv zeta.
  assert (L := scanFile_long o s e Hs He). cbv zeta in L.
  rewrite <- Ed in L. specialize (L Hge).
  destruct (numSubs_long d Hge) as [Hc _].
  set (c := Qceiling (d / 2)) in *.
  assert (Hse : (s < e)%Z) by (apply span_nonneg; now rewrite <- Ed).
  assert (Hcn : Z.of_nat (Z.to_nat c) = c) by (apply Z2Nat.id; lia).
  assert (Hc0 : ~ inject_Z c == 0).
  { intro E. apply (proj1 (inject_Z_injective c 0)) in E. lia. }
  rewrite L. split; [|split].
  - now rewrite length_map, length_seq.
  - intros i Hi.
    exists (JS.Qtrunc (claimed_subStart s e i (Z.to_nat c))), (d / inject_Z c).
    split; [|split].
    + rewrite nth_error_map, nth_error_seq.
      destruct (Nat.ltb_spec i (Z.to_nat c)) as [_|Hn]; [|lia].
      cbn [option_map Nat.add].
      rewrite (subStart_valid s e c i) by (unfold maxTimeValue in *; lia).
      unfold claimed_subStart. now rewrite Hcn.
    + destruct (Qtrunc_near (claimed_subStart s e i (Z.to_nat c))) as [N1 N2].
      apply Qabs_Qlt_condition. split; lra.
    + now rewrite Hcn.
  - unfold sumHours.
    match goal with
    | |- context [fold_left _ ?l _] =>
        destruct (fold_hours_const l (d / inject_Z c)) with (a := 0)
          as (r & Er & Hr)
    end.
    { apply Forall_forall. intros x Hx. apply in_map_iff in Hx.
      now destruct Hx as (i & <- & _). }
    exists r. split; [exact Er|].
    assert (E0 : r - d == 0).
    { rewrite Hr, length_map, length_seq, Hcn. field. exact Hc0. }
    rewrite E0. change (Qabs 0) with 0. lra.
Qed.

Lemma long_span_sub_sessions_witness :
  let o := mkObs (Some (ValidDate 0)) (Some (ValidDate 10800001)) in
  exists s e,
    ValidDate 0 = ValidDate s /\ endTime_of o (ValidDate 0) = ValidDate e /\
    let numSubs := Z.to_nat (Qceiling ((inject_Z 10800001 - inject_Z 0) / 3600000 / 2)) in
    List.length (scanFile o) = numSubs
    /\ (forall i, (i < numSubs)%nat ->
          exists t h,
            nth_error (scanFile o) i
            = Some (mkSession (ValidDate t) (ValidDate t) (JS.Fin h))
            /\ Qabs (inject_Z t - claimed_subStart s e i numSubs) < 5
            /\ h == (inject_Z 10800001 - inject_Z 0) / 3600000
                    / inject_Z (Z.of_nat numSubs))
    /\ exists total,
         sumHours (scanFile o) = JS.Fin total
         /\ Qabs (total - (inject_Z 10800001 - inject_Z 0) / 3600000)
            <= (inject_Z 10800001 - inject_Z 0) / 3600000 * (1 # 1000000).
Proof.
  intro o.
  apply (long_span_sub_sessions o (ValidDate 0)
           ((inject_Z 10800001 - inject_Z 0) / 3600000)).
  - reflexivity.
  - reflexivity.
  - vm_compute. discriminate.
  - vm_compute. split; discriminate.
  - vm_compute. split; discriminate.
Defined.

(** Every session of a file starts at a valid Date. *)
Lemma scanFile_valid_start (o : RawObservation) :
  obs_in_range o -> Forall valid_start (scanFile o).
Proof.
  unfold obs_in_range, scanFile.
  destruct (firstTimestamp o) as [st|] eqn:Hs; [|constructor].
  intros [Rs Re]. cbv zeta.
  destruct (durationHours_Fin_or_NaN st (endTime_of o st)) as [[d Hd] | Hn].
  - destruct (durationHours_Fin_inv _ _ _ Hd) as (s & e & -> & He & Ed).
    destruct (Qlt_le_dec d 1) as [Hlt | Hge].
    + rewrite Hd, (proj2 (short_test d) Hlt).
      constructor; [discriminate | constructor].
    + assert (L := scanFile_long o s e Hs He). cbv zeta in L.
      rewrite <- Ed in L. specialize (L Hge).
      unfold scanFile in L. rewrite Hs in L. cbv zeta in L. rewrite L.
      destruct (numSubs_long d Hge) as [Hc _].
      assert (Hse : (s < e)%Z) by (apply span_nonneg; now rewrite <- Ed).
      rewrite He in Re. cbn in Rs, Re.
      apply Forall_forall. intros x Hx.
      apply in_map_iff in Hx. destruct Hx as (i & <- & Hi).
      apply in_seq in Hi. unfold valid_start. cbn [start].
      rewrite (subStart_valid s e (Qceiling (d / 2)) i)
        by (unfold maxTimeValue in *; lia).
      discriminate.
  - rewrite Hn. cbn. constructor.
Qed.

Lemma scanSessions_valid_start (files : list RawObservation) :
  Forall obs_in_range files -> Forall valid_start (scanSessions files).
Proof.
  rewrite scanSessions_flat_map. intro H.
  apply Forall_forall. intros x Hx. apply in_flat_map in Hx.
  destruct Hx as (o & Ho & Hx).
  rewrite Forall_forall in H.
  pose proof (scanFile_valid_start o (H o Ho)) as V.
  rewrite Forall_forall in V. now apply V.
Qed.

(** ** Counters *)

Lemma fold_add_acc (l : list nat) (a : nat) :
  fold_left Nat.add l a = (a + fold_left Nat.add l 0)%nat.
Proof.
  revert a. induction l as [|x l IH]; intro a; simpl.
  - lia.
  - rewrite (IH (a + x)%nat), (IH x). lia.
Qed.

Lemma sum_cons (x : nat) (l : list nat) : sum (x :: l) = (x + sum l)%nat.
Proof. unfold sum. simpl. apply fold_add_acc. Qed.

Lemma sum_app (l1 l2 : list nat) : sum (l1 ++ l2) = (sum l1 + sum l2)%nat.
Proof.
  induction l1 as [|x l1 IH]; [reflexivity|].
  rewrite <- app_comm_cons, !sum_cons, IH. lia.
Qed.

(** A slice and what follows it make up what follows its left end. *)
Lemma sum_slice_skipn (from to : nat) (a : list nat) :
  (from <= to)%nat ->
  sum (skipn from a) = (sum (slice from to a) + sum (skipn to a))%nat.
Proof.
  intro H. unfold slice.
  rewrite <- sum_app.
  replace (skipn to a) with (skipn (to - from) (skipn from a)).
  - now rewrite firstn_skipn.
  - rewrite skipn_skipn. f_equal. lia.
Qed.

(** The four bands cover every hour once. *)
Lemma bands_partition (a : list nat) :
  (sum (slice 0 5 a) + sum (slice_from 22 a)
   + sum (slice 5 9 a) + sum (slice 9 17 a) + sum (slice 17 22 a))%nat
  = sum a.
Proof.
  unfold slice_from.
  change (sum a) with (sum (skipn 0 a)).
  rewrite (sum_slice_skipn 0 5), (sum_slice_skipn 5 9), (sum_slice_skipn 9 17),
          (sum_slice_skipn 17 22) by lia.
  lia.
Qed.

Lemma bump_length (i : nat) (a : list nat) : List.length (bump i a) = List.length a.
Proof.
  revert i. induction a as [|x a IH]; intros [|i]; simpl; auto.
Qed.

Lemma bump_sum (i : nat) (a : list nat) :
  (i < List.length a)%nat -> sum (bump i a) = S (sum a).
Proof.
  revert i. induction a as [|x a IH]; intros [|i] H; simpl in *; try lia.
  - rewrite !sum_cons. lia.
  - rewrite !sum_cons, IH by lia. lia.
Qed.

Lemma bump_at_length (k : option nat) (a : list nat) :
  List.length (bump_at k a) = List.length a.
Proof. destruct k; [apply bump_length | reflexivity]. Qed.

Section CountersLocalTime.

Variable tz : Z -> Z.

Lemma getHours_valid (t : Z) :
  exists h, getHours tz (ValidDate t) = Some h /\ (h < 24)%nat.
Proof.
  eexists; split; [reflexivity|].
  pose proof (Z.mod_pos_bound (LocalTime tz t / msPerHour) 24). lia.
Qed.

Lemma count_fold_length (key : Date -> option nat) (sessions : list Session)
      (b : list nat) :
  List.length (fold_left (fun b s => bump_at (key (start s)) b) sessions b)
  = List.length b.
Proof.
  revert b. induction sessions as [|s sessions IH]; intro b; simpl; [reflexivity|].
  now rewrite IH, bump_at_length.
Qed.

Lemma count_hours_length (sessions : list Session) :
  List.length (count_hours tz sessions) = 24%nat.
Proof. unfold count_hours. now rewrite count_fold_length, repeat_length. Qed.

Lemma count_days_length (sessions : list Session) :
  List.length (count_days tz sessions) = 7%nat.
Proof. unfold count_days. now rewrite count_fold_length, repeat_length. Qed.

(** Every session with a valid start is counted in exactly one hour. *)
Lemma count_hours_sum (sessions : list Session) :
  Forall valid_start sessions ->
  sum (count_hours tz sessions) = List.length sessions.
Proof.
  unfold count_hours.
  assert (G : forall b, List.length b = 24%nat -> Forall valid_start sessions ->
              sum (fold_left (fun b s => bump_at (getHours tz (start s)) b) sessions b)
              = (sum b + List.length sessions)%nat).
  { induction sessions as [|s sessions IH]; intros b Hb Hv; simpl.
    - lia.
    - inversion Hv as [|? ? Hs Hv']; subst.
      destruct (start s) as [t|] eqn:Es; [|now elim Hs].
      destruct (getHours_valid t) as (h & Eh & Hh). rewrite Eh. cbn [bump_at].
      rewrite IH; [|now rewrite bump_length|exact Hv'].
      rewrite bump_sum by lia. lia. }
  intro Hv. rewrite G; [reflexivity|apply repeat_length|exact Hv].
Qed.

End CountersLocalTime.

(** ** Statistics *)

Lemma of_nat_div (k n : nat) :
  n <> 0%nat ->
  JS.div (JS.of_nat k) (JS.of_nat n)
  = JS.Fin (inject_Z (Z.of_nat k) / inject_Z (Z.of_nat n)).
Proof.
  intro Hn. unfold JS.of_nat, JS.of_Z. apply div_Fin.
  intro E. apply (proj1 (inject_Z_injective (Z.of_nat n) 0)) in E. lia.
Qed.

Lemma inject_Z_of_nat_add (a b : nat) :
  inject_Z (Z.of_nat (a + b)) = inject_Z (Z.of_nat a) + inject_Z (Z.of_nat b).
Proof. now rewrite Nat2Z.inj_add, inject_Z_plus. Qed.

(** ** Active days: the set, the sort and the streak loop *)

Lemma Set_add_incl (set : list DateString) (k x : DateString) :
  In x (Set_add set k) -> In x set \/ x = k.
Proof.
  unfold Set_add. destruct (existsb (DateString_eqb k) set); [now left|].
  intro H. apply in_app_or in H. destruct H as [H | [H | []]]; auto.
Qed.

Lemma new_Set_incl (keys : list DateString) (x : DateString) :
  In x (new_Set keys) -> In x keys.
Proof.
  unfold new_Set.
  assert (G : forall set, In x (fold_left Set_add keys set) -> In x set \/ In x keys).
  { induction keys as [|k keys IH]; intros set H; simpl in *; [now left|].
    destruct (IH _ H) as [H1 | H1]; [|now right; right].
    destruct (Set_add_incl _ _ _ H1) as [H2 | ->]; [now left | now right; left]. }
  intro H. destruct (G [] H) as [[] | H']. exact H'.
Qed.

Lemma fold_Set_add_length (keys set : list DateString) :
  (List.length set <= List.length (fold_left Set_add keys set))%nat.
Proof.
  revert set. induction keys as [|k keys IH]; intro set; simpl; [lia|].
  etransitivity; [|apply IH].
  unfold Set_add. destruct (existsb (DateString_eqb k) set); [lia|].
  rewrite length_app. simpl. lia.
Qed.

Lemma new_Set_nonempty (keys : list DateString) :
  keys <> [] -> (1 <= List.length (new_Set keys))%nat.
Proof.
  destruct keys as [|k keys]; [contradiction|]. intros _.
  unfold new_Set. simpl fold_left.
  etransitivity; [|apply fold_Set_add_length]. simpl. lia.
Qed.

(** The comparator and the streak test on valid dates. *)
Lemma date_gt_valid (x y : Z) :
  JS.gtb (JS.sub (getTime (ValidDate x)) (getTime (ValidDate y))) (JS.Fin 0)
  = (y <? x)%Z.
Proof.
  cbn. destruct (Z.ltb_spec y x) as [H | H].
  - apply negb_true_iff, Qle_bool_false_iff.
    apply inject_Z_lt in H. lra.
  - apply negb_false_iff, Qle_bool_iff.
    apply inject_Z_le in H. lra.
Qed.


(** Inserting into an ascending array of valid dates. *)
Lemma sort_insert_valid (x : Z) (zs : list Z) :
  StronglySorted Z.le zs ->
  exists zs',
    sort_insert (ValidDate x) (map ValidDate zs) = map ValidDate zs'
    /\ StronglySorted Z.le zs'
    /\ Permutation (x :: zs) zs'.
Proof.
  induction 1 as [|y zs Hs IH Hy].
  - exists [x]. repeat split; auto. repeat constructor.
  - cbn [map sort_insert]. rewrite date_gt_valid.
    destruct (Z.ltb_spec y x) as [Hlt | Hge].
    + destruct IH as (zs' & E & S' & P).
      exists (y :: zs'). rewrite E. split; [reflexivity|]. split.
      * constructor; [exact S'|].
        apply (Permutation_Forall P). constructor; [lia | exact Hy].
      * rewrite perm_swap. now constructor.
    + exists (x :: y :: zs). split; [reflexivity|]. split; [|reflexivity].
      constructor; [now constructor|].
      constructor; [exact Hge|].
      eapply Forall_impl; [|exact Hy]. intros; lia.
Qed.

(** Sorting valid dates: the ascending arrangement of their time values. *)
Lemma sort_valid (zs : list Z) :
  exists zs',
    sort (map ValidDate zs) = map ValidDate zs'
    /\ StronglySorted Z.le zs'
    /\ Permutation zs zs'.
Proof.
  induction zs as [|z zs (zs1 & E & S1 & P1)].
  - exists []. repeat split; auto. constructor.
  - cbn [map sort fold_right]. fold (sort (map ValidDate zs)). rewrite E.
    destruct (sort_insert_valid z zs1 S1) as (zs2 & E2 & S2 & P2).
    exists zs2. split; [exact E2|]. split; [exact S2|].
    etransitivity; [|exact P2]. now constructor.
Qed.

Lemma last_cons_default {A : Type} (l : list A) (a d1 d2 : A) :
  last (a :: l) d1 = last (a :: l) d2.
Proof.
  revert a. induction l as [|b l IH]; intro a; [reflexivity|].
  change (last (a :: b :: l) d1) with (last (b :: l) d1).
  change (last (a :: b :: l) d2) with (last (b :: l) d2).
  apply IH.
Qed.



Section StatsProperties.

Variable tz : Z -> Z.
Variable tzAtLocal : Z -> Z.
Variable parseLegacy : Z -> Date.

(** On a non-empty array [computeStats] returns a statistics object. *)
Lemma computeStats_nonempty (sessions : list Session) :
  sessions <> [] ->
  exists st, computeStats tz tzAtLocal parseLegacy sessions = Some st
             /\ totalSessions st = List.length sessions
             /\ projectCount st = 0%nat.
Proof.
  intro Hne. unfold computeStats.
  destruct sessions as [|s0 rest]; [contradiction|].
  cbn [List.length Nat.eqb]. eexists. split; [reflexivity|]. split; reflexivity.
Qed.

(** C4. For a non-empty array of sessions (each with a valid start Date),
    [nightPct + morningPct + afternoonPct + eveningPct] is 1: the bands
    0-4 with 22-23, 5-8, 9-16 and 17-21 cover each of the 24 hour buckets
    once, the buckets add up to [totalSessions], and every fraction divides
    by that same [totalSessions]. *)
Theorem band_fractions_sum_to_one (sessions : list Session) :
  sessions <> [] ->
  Forall valid_start sessions ->
  exists st,
    computeStats tz tzAtLocal parseLegacy sessions = Some st
    /\ List.length (hourBuckets st) = 24%nat
    /\ sum (hourBuckets st) = totalSessions st
    /\ nightPct st
       = JS.div (JS.of_nat (sum (slice 0 5 (hourBuckets st))
                            + sum (slice_from 22 (hourBuckets st))))
                (JS.of_nat (totalSessions st))
    /\ morningPct st
       = JS.div (JS.of_nat (sum (slice 5 9 (hourBuckets st))))
                (JS.of_nat (totalSessions st))
    /\ afternoonPct st
       = JS.div (JS.of_nat (sum (slice 9 17 (hourBuckets st))))
                (JS.of_nat (totalSessions st))
    /\ eveningPct st
       = JS.div (JS.of_nat (sum (slice 17 22 (hourBuckets st))))
                (JS.of_nat (totalSessions st))
    /\ JS.num_eq
         (JS.add (JS.add (JS.add (nightPct st) (morningPct st)) (afternoonPct st))
                 (eveningPct st))
         (JS.Fin 1).
Proof.
  intros Hne Hv. unfold computeStats.
  destruct sessions as [|s0 rest] eqn:Es; [contradiction|].
  rewrite <- Es in *. assert (Hlen : List.length sessions <> 0%nat) by (subst; discriminate).
  replace (List.length sessions =? 0)%nat with false
    by (symmetry; now apply Nat.eqb_neq).
  eexists. split; [reflexivity|].
  cbn [hourBuckets totalSessions nightPct morningPct afternoonPct eveningPct].
  split; [apply count_hours_length|].
  split; [now apply count_hours_sum|].
  do 4 (split; [reflexivity|]).
  rewrite !of_nat_div by exact Hlen. cbn [JS.add JS.num_eq].
  pose proof (bands_partition (count_hours tz sessions)) as P.
  rewrite (count_hours_sum tz sessions Hv) in P.
  set (n := List.length sessions) in *.
  assert (Hn : ~ inject_Z (Z.of_nat n) == 0).
  { intro E. apply (proj1 (inject_Z_injective (Z.of_nat n) 0)) in E. lia. }
  assert (HN : inject_Z (Z.of_nat n)
               == inject_Z (Z.of_nat (sum (slice 0 5 (count_hours tz sessions))
                                      + sum (slice_from 22 (count_hours tz sessions))))
                  + inject_Z (Z.of_nat (sum (slice 5 9 (count_hours tz sessions))))
                  + inject_Z (Z.of_nat (sum (slice 9 17 (count_hours tz sessions))))
                  + inject_Z (Z.of_nat (sum (slice 17 22 (count_hours tz sessions))))).
  { rewrite <- P at 1. now rewrite !inject_Z_of_nat_add. }
  revert HN Hn.
  generalize (inject_Z (Z.of_nat n)) as N.
  generalize (inject_Z (Z.of_nat (sum (slice 0 5 (count_hours tz sessions))
                                  + sum (slice_from 22 (count_hours tz sessions))))) as q1.
  generalize (inject_Z (Z.of_nat (sum (slice 5 9 (count_hours tz sessions))))) as q2.
  generalize (inject_Z (Z.of_nat (sum (slice 9 17 (count_hours tz sessions))))) as q3.
  generalize (inject_Z (Z.of_nat (sum (slice 17 22 (count_hours tz sessions))))) as q4.
  intros q4 q3 q2 q1 N HN Hn.
  transitivity ((q1 + q2 + q3 + q4) / N); [field; exact Hn|].
  rewrite <- HN. field. exact Hn.
Qed.

Lemma inject_Z_of_nat_nonneg (n : nat) : 0 <= inject_Z (Z.of_nat n).
Proof. apply (inject_Z_le 0). lia. Qed.

(** C8. For a non-empty array of sessions, with [d0 .. d6] the seven day
    buckets (0 = Sunday), [weekendRatio] is [((d0 + d6) / 2)] over
    [((d1 + d2 + d3 + d4 + d5) / 5)] when that weekday average is not zero
    and 0 when it is; in both cases it is a finite number, not negative. *)
Theorem weekendRatio_defined (sessions : list Session) :
  sessions <> [] ->
  exists st d0 d1 d2 d3 d4 d5 d6 r,
    computeStats tz tzAtLocal parseLegacy sessions = Some st
    /\ dayBuckets st = [d0; d1; d2; d3; d4; d5; d6]
    /\ weekendRatio st = JS.Fin r
    /\ 0 <= r
    /\ let weekday := inject_Z (Z.of_nat (d1 + d2 + d3 + d4 + d5)) / 5 in
       let weekend := inject_Z (Z.of_nat (d0 + d6)) / 2 in
       (weekday == 0 -> r == 0)
       /\ (~ weekday == 0 -> r == weekend / weekday).
Proof.
  intro Hne. unfold computeStats.
  replace (List.length sessions =? 0)%nat with false
    by (destruct sessions; [contradiction | reflexivity]).
  pose proof (count_days_length tz sessions) as Hlen.
  destruct (count_days tz sessions)
    as [|d0 [|d1 [|d2 [|d3 [|d4 [|d5 [|d6 [|? ?]]]]]]]] eqn:Edb;
    try discriminate Hlen.
  clear Hlen.
  replace (sum (slice 1 6 [d0; d1; d2; d3; d4; d5; d6]))
    with (d1 + d2 + d3 + d4 + d5)%nat by (cbn; lia).
  cbn [nth].
  set (wd := (d1 + d2 + d3 + d4 + d5)%nat).
  set (we := (d0 + d6)%nat).
  unfold JS.of_nat, JS.of_Z.
  rewrite !(div_Fin _ 5), !(div_Fin _ 2) by discriminate.
  pose proof (inject_Z_of_nat_nonneg wd) as Hwd.
  pose proof (inject_Z_of_nat_nonneg we) as Hwe.
  assert (Hwd5 : 0 <= inject_Z (Z.of_nat wd) / 5)
    by (apply Qle_shift_div_l; [reflexivity | lra]).
  assert (Hwe2 : 0 <= inject_Z (Z.of_nat we) / 2)
    by (apply Qle_shift_div_l; [reflexivity | lra]).
  unfold JS.gtb, JS.ltb.
  destruct (Qle_bool (inject_Z (Z.of_nat wd) / 5) 0) eqn:E; cbn [negb].
  - apply Qle_bool_iff in E.
    eexists; exists d0, d1, d2, d3, d4, d5, d6, 0.
    split; [reflexivity|]. cbn [dayBuckets weekendRatio].
    repeat split; try reflexivity; try apply Qle_refl.
    intro Hnz. exfalso. apply Hnz. fold wd. lra.
  - apply Qle_bool_false_iff in E.
    assert (Hnz : ~ inject_Z (Z.of_nat wd) / 5 == 0) by lra.
    rewrite (div_Fin (inject_Z (Z.of_nat we) / 2) (inject_Z (Z.of_nat wd) / 5))
      by exact Hnz.
    eexists; exists d0, d1, d2, d3, d4, d5, d6; eexists.
    split; [reflexivity|]. cbn [dayBuckets weekendRatio].
    split; [reflexivity|]. split; [reflexivity|]. split.
    + apply Qle_shift_div_l; [exact E | lra].
    + split; [|reflexivity]. fold wd. intro H0. contradiction.
Qed.

Lemma parsed_start_valid (sessions : list Session) :
  Forall (parsed_start tz) sessions -> Forall valid_start sessions.
Proof.
  apply Forall_impl. intros x H. unfold parsed_start, valid_start in *.
  destruct (start x); [discriminate | contradiction].
Qed.

(** The active dates of sessions that start in the years 100 to 9999 parse
    back to valid dates. *)
Lemma allDates_valid (sessions : list Session) :
  Forall (parsed_start tz) sessions ->
  exists zs,
    map (Date_parse tzAtLocal parseLegacy)
        (new_Set (map (fun s => toDateString tz (start s)) sessions))
    = map ValidDate zs.
Proof.
  intro Hv.
  assert (K : Forall (fun k => exists day,
                          k = DayString day
                          /\ (firstParsedDay <= day <= lastParsedDay)%Z)
                     (new_Set (map (fun s => toDateString tz (start s)) sessions))).
  { apply Forall_forall. intros k Hk. apply new_Set_incl in Hk.
    apply in_map_iff in Hk. destruct Hk as (x & <- & Hx).
    rewrite Forall_forall in Hv. specialize (Hv x Hx). unfold parsed_start in Hv.
    destruct (start x) as [t|]; [|contradiction].
    exists (LocalTime tz t / msPerDay)%Z. now split. }
  induction K as [|k ks (day & -> & Hlo & Hhi) _ (zs & E)].
  - now exists [].
  - exists (UTC tzAtLocal (day * msPerDay) :: zs). cbn [map Date_parse].
    apply Z.leb_le in Hlo, Hhi. rewrite Hlo, Hhi. cbn [andb]. now rewrite E.
Qed.


(** C6. On the empty array [computeStats] returns no statistics object but
    [null], and [main] ends with its no-sessions exit before [computeStats]
    and [getArchetype] are reached; on a non-empty array a statistics
    object is returned and [main] goes on to classify it. *)
Theorem empty_input_no_snapshot (sessions : list Session) (p : nat) :
  main tz tzAtLocal parseLegacy [] p = ExitNoSessions
  /\ match sessions with
     | [] =>
         computeStats tz tzAtLocal parseLegacy sessions = None
         /\ main_after_scan tz tzAtLocal parseLegacy sessions p = ExitNoSessions
     | _ :: _ =>
         exists st,
           computeStats tz tzAtLocal parseLegacy sessions = Some st
           /\ main_after_scan tz tzAtLocal parseLegacy sessions p
              = Report (set_projectCount st p) (getArchetype (set_projectCount st p))
     end.
Proof.
  split; [reflexivity|].
  destruct sessions as [|s0 rest] eqn:Es; [split; reflexivity|].
  rewrite <- Es.
  destruct (computeStats_nonempty sessions) as (st & E & _); [subst; discriminate|].
  exists st. split; [exact E|].
  unfold main_after_scan. rewrite E.
  now replace (List.length sessions =? 0)%nat with false by (subst; reflexivity).
Qed.

(** C5. For a non-empty array of sessions and a project count [p], the
    statistics object that [main] hands to [getArchetype] and reports is the
    one [computeStats] returned (there with [projectCount] 0, to be filled
    later) with its [projectCount] set to [p]. *)
Theorem main_fills_projectCount (sessions : list Session) (p : nat) :
  sessions <> [] ->
  exists st0 stats archetype,
    computeStats tz tzAtLocal parseLegacy sessions = Some st0
    /\ projectCount st0 = 0%nat
    /\ main_after_scan tz tzAtLocal parseLegacy sessions p = Report stats archetype
    /\ stats = set_projectCount st0 p
    /\ archetype = getArchetype stats
    /\ projectCount stats = p.
Proof.
  intro Hne.
  destruct (computeStats_nonempty sessions Hne) as (st & E & _ & E0).
  exists st, (set_projectCount st p), (getArchetype (set_projectCount st p)).
  split; [exact E|]. split; [exact E0|]. split; [|repeat split].
  unfold main_after_scan. rewrite E.
  now replace (List.length sessions =? 0)%nat with false
    by (destruct sessions; [contradiction | reflexivity]).
Qed.

End StatsProperties.

(** ** Determining the archetype *)

(** The loop returns the first archetype of the array whose condition
    holds. *)
Lemma scanArchetypes_first (l : list Archetype) (stats : Stats) :
  match scanArchetypes l stats with
  | Some r =>
      exists before after,
        l = before ++ r :: after
        /\ Forall (fun a => holds a stats = false) before
        /\ holds r stats = true
  | None => Forall (fun a => holds a stats = false) l
  end.
Proof.
  induction l as [|a l IH]; cbn [scanArchetypes]; [constructor|].
  destruct (holds a stats) eqn:Ha.
  - exists [], l. repeat split; [constructor | exact Ha].
  - destruct (scanArchetypes l stats) as [r|].
    + destruct IH as (before & after & -> & Hb & Hr).
      exists (a :: before), after. repeat split; [now constructor | exact Hr].
    + now constructor.
Qed.

(** Replacing the table's [machine] entry by [machineArchetype] changes no
    condition, so the loop stops at the same position. *)
Lemma scanArchetypes_map (f : Archetype -> Archetype) (l : list Archetype)
      (stats : Stats) :
  Forall (fun a => holds (f a) stats = holds a stats) l ->
  scanArchetypes (map f l) stats = option_map f (scanArchetypes l stats).
Proof.
  induction 1 as [|a l Ha _ IH]; [reflexivity|].
  cbn [map scanArchetypes]. rewrite Ha.
  destruct (holds a stats); [reflexivity | exact IH].
Qed.

Lemma getArchetype_scan (stats : Stats) :
  getArchetype stats
  = match scanArchetypes ARCHETYPES stats with
    | Some rule =>
        if String.eqb (id rule) "machine" then machineArchetype stats else rule
    | None => balanced
    end.
Proof.
  unfold getArchetype. rewrite scanArchetypes_map by (repeat constructor).
  now destruct (scanArchetypes ARCHETYPES stats).
Qed.

(** C1. [getArchetype] tries the ten archetypes in the order of the table
    (Midnight Beast, Dawn Coder, Unstoppable Machine, Weekend Warrior,
    Burst Genius, Disciplined Architect, Session Monster, Micro-Shipper,
    Code Explorer, Mono-Focused) and returns the first one whose condition
    holds, the machine entry with its description carrying the streak; when
    none holds it returns the balanced default.  In particular statistics
    with [nightPct >= 0.30] and [maxStreak >= 30] give the Midnight
    Beast. *)
Theorem getArchetype_first_match (stats : Stats) :
  map id ARCHETYPES
  = [ "night_beast"; "dawn_coder"; "machine"; "weekend_warrior"; "burst_genius";
      "disciplined"; "session_monster"; "micro_shipper"; "explorer";
      "mono_focused" ]%string
  /\ ((exists before rule after,
          ARCHETYPES = before ++ rule :: after
          /\ Forall (fun a => holds a stats = false) before
          /\ holds rule stats = true
          /\ getArchetype stats
             = (if String.eqb (id rule) "machine" then machineArchetype stats
                else rule)
          /\ id (getArchetype stats) = id rule)
      \/ (Forall (fun a => holds a stats = false) ARCHETYPES
          /\ getArchetype stats = balanced
          /\ id balanced = "balanced"%string))
  /\ (JS.geb (nightPct stats) (JS.Fin 0.30) = true ->
      JS.geb (JS.of_nat (maxStreak stats)) (JS.Fin 30) = true ->
      holds night_beast stats = true
      /\ holds machine stats = true
      /\ getArchetype stats = night_beast).
Proof.
  split; [reflexivity|]. split.
  - rewrite getArchetype_scan.
    pose proof (scanArchetypes_first ARCHETYPES stats) as H.
    destruct (scanArchetypes ARCHETYPES stats) as [rule|].
    + left. destruct H as (before & after & E & Hb & Hr).
      exists before, rule, after. repeat split; try assumption.
      destruct (String.eqb_spec (id rule) "machine") as [-> | _]; reflexivity.
    + right. repeat split. exact H.
  - intros Hn Hm. split; [exact Hn|]. split; [exact Hm|].
    rewrite getArchetype_scan.
    change (scanArchetypes ARCHETYPES stats)
      with (if holds night_beast stats then Some night_beast
            else scanArchetypes (tl ARCHETYPES) stats).
    change (holds night_beast stats) with (JS.geb (nightPct stats) (JS.Fin 0.30)).
    now rewrite Hn.
Qed.

(** Statistics with 40 % night sessions and a streak of 45 days. *)
Lemma getArchetype_first_match_witness :
  let stats :=
    mkStats 100 (JS.Fin 50) 50 (JS.Fin 60) 45
            (JS.Fin 0.4) (JS.Fin 0.1) (JS.Fin 0.3) (JS.Fin 0.2)
            (JS.Fin 0.5) (JS.Fin 0.5) [] [] 4 2 in
  holds night_beast stats = true
  /\ holds machine stats = true
  /\ getArchetype stats = night_beast.
Proof.
  intro stats.
  apply (proj2 (proj2 (getArchetype_first_match stats))).
  - reflexivity.
  - reflexivity.
Defined.

(** ** The theorems on the sample data *)

Lemma sample_sessions_valid : Forall valid_start sample_sessions.
Proof. repeat constructor; discriminate. Qed.

Lemma sample_sessions_parsed : Forall (parsed_start utc) sample_sessions.
Proof. repeat constructor; vm_compute; discriminate. Qed.

(** C5, as stated, fails: [computeStats] takes the sessions only, and the
    object it returns has [projectCount] 0 whatever count [main] holds.
    With the three sample files and seven project directories the object
    returned by [computeStats] has [projectCount] 0; the 7 is assigned to
    it afterwards by [main]. *)
Lemma computeStats_ignores_projectCount :
  exists st0 stats archetype,
    computeStats utc utc rejecting (scanSessions sample_files) = Some st0
    /\ projectCount st0 = 0%nat
    /\ projectCount st0 <> 7%nat
    /\ main utc utc rejecting sample_files 7 = Report stats archetype
    /\ projectCount stats = 7%nat
    /\ stats <> st0.
Proof.
  do 3 eexists. split; [vm_compute; reflexivity|].
  split; [reflexivity|]. split; [discriminate|].
  split; [vm_compute; reflexivity|]. split; [reflexivity|].
  intro E. apply (f_equal projectCount) in E. discriminate.
Qed.


Lemma band_fractions_sum_to_one_witness :
  exists st,
    computeStats utc utc rejecting sample_sessions = Some st
    /\ List.length (hourBuckets st) = 24%nat
    /\ sum (hourBuckets st) = totalSessions st
    /\ nightPct st
       = JS.div (JS.of_nat (sum (slice 0 5 (hourBuckets st))
                            + sum (slice_from 22 (hourBuckets st))))
                (JS.of_nat (totalSessions st))
    /\ morningPct st
       = JS.div (JS.of_nat (sum (slice 5 9 (hourBuckets st))))
                (JS.of_nat (totalSessions st))
    /\ afternoonPct st
       = JS.div (JS.of_nat (sum (slice 9 17 (hourBuckets st))))
                (JS.of_nat (totalSessions st))
    /\ eveningPct st
       = JS.div (JS.of_nat (sum (slice 17 22 (hourBuckets st))))
                (JS.of_nat (totalSessions st))
    /\ JS.num_eq
         (JS.add (JS.add (JS.add (nightPct st) (morningPct st)) (afternoonPct st))
                 (eveningPct st))
         (JS.Fin 1).
Proof.
  apply (band_fractions_sum_to_one utc utc rejecting sample_sessions).
  - discriminate.
  - exact sample_sessions_valid.
Defined.


Lemma weekendRatio_defined_witness :
  exists st d0 d1 d2 d3 d4 d5 d6 r,
    computeStats utc utc rejecting sample_sessions = Some st
    /\ dayBuckets st = [d0; d1; d2; d3; d4; d5; d6]
    /\ weekendRatio st = JS.Fin r
    /\ 0 <= r
    /\ let weekday := inject_Z (Z.of_nat (d1 + d2 + d3 + d4 + d5)) / 5 in
       let weekend := inject_Z (Z.of_nat (d0 + d6)) / 2 in
       (weekday == 0 -> r == 0)
       /\ (~ weekday == 0 -> r == weekend / weekday).
Proof.
  apply (weekendRatio_defined utc utc rejecting sample_sessions).
  discriminate.
Defined.

Lemma main_fills_projectCount_witness :
  exists st0 stats archetype,
    computeStats utc utc rejecting sample_sessions = Some st0
    /\ projectCount st0 = 0%nat
    /\ main_after_scan utc utc rejecting sample_sessions 7 = Report stats archetype
    /\ stats = set_projectCount st0 7
    /\ archetype = getArchetype stats
    /\ projectCount stats = 7%nat.
Proof.
  apply (main_fills_projectCount utc utc rejecting sample_sessions 7).
  discriminate.
Defined.

(** The sample in numbers: six sessions on six days, a streak of five,
    twelve days from the first to the last, five of six sessions at night:
    the Midnight Beast. *)
Example sample_stats :
  option_map (fun st => (totalSessions st, activeDays st, maxStreak st,
                         totalDays st, nightPct st, peakHour st,
                         id (getArchetype st)))
             (computeStats utc utc rejecting sample_sessions)
  = Some (6%nat, 6%nat, 5%nat, JS.Fin 12, JS.Fin (5 # 6), 2%Z,
          "night_beast"%string).
Proof. reflexivity. Qed.

(** One file spanning ten hours: five sub-sessions of two hours, their
    starts two hours apart. *)
Example ten_hour_file :
  map (fun x => (start x, end_ x)) (scanFile (mkObs (Some (ValidDate 0))
                                                    (Some (ValidDate 36000000))))
  = map (fun t => (ValidDate t, ValidDate t))
        [ 0; 7200000; 14400000; 21600000; 28800000 ]%Z
  /\ Forall (fun x => JS.num_eq (hours x) (JS.Fin 2))
            (scanFile (mkObs (Some (ValidDate 0)) (Some (ValidDate 36000000)))).
Proof. split; [reflexivity | repeat constructor]. Qed.

(** 500 sessions on 50 active days are 10 a day: the Micro-Shipper does not
    match, and with no other condition holding the default is returned. *)
Example ten_a_day_is_balanced :
  let stats :=
    mkStats 500 (JS.Fin 400) 50 (JS.Fin 80) 10
            (JS.Fin 0.1) (JS.Fin 0.2) (JS.Fin 0.5) (JS.Fin 0.2)
            (JS.Fin 0.4) (JS.Fin 0.8) [] [] 10 14 in
  holds micro_shipper stats = false /\ getArchetype stats = balanced.
Proof. split; reflexivity. Qed.

(** * Further properties of the code *)

(** ** Session reconstruction *)

(** X1. A file pushes no session exactly when its first line gave no
    timestamp or one of its two timestamps is an Invalid Date. *)
Theorem scanFile_nil_iff (o : RawObservation) :
  scanFile o = []
  <-> firstTimestamp o = None
      \/ firstTimestamp o = Some InvalidDate
      \/ lastTimestamp o = Some InvalidDate.
Proof.
  split.
  - intro H.
    destruct (firstTimestamp o) as [[s|]|] eqn:Hs; [|now right; left|now left].
    right; right.
    destruct (lastTimestamp o) as [[e|]|] eqn:He; [|reflexivity|]; exfalso.
    + assert (Het : endTime_of o (ValidDate s) = ValidDate e)
        by (unfold endTime_of; now rewrite He).
      destruct (Qlt_le_dec ((inject_Z e - inject_Z s) / 3600000) 1) as [Hlt | Hge].
      * rewrite (scanFile_short o (ValidDate s)
                                ((inject_Z e - inject_Z s) / 3600000) Hs) in H;
          [discriminate | now rewrite Het | exact Hlt].
      * rewrite (scanFile_long o s e Hs Het Hge) in H.
        destruct (numSubs_long _ Hge) as [Hc _].
        apply (f_equal (@List.length Session)) in H.
        rewrite length_map, length_seq in H. simpl in H. lia.
    + assert (Het : endTime_of o (ValidDate s) = ValidDate s)
        by (unfold endTime_of; now rewrite He).
      rewrite (scanFile_short o (ValidDate s) ((inject_Z s - inject_Z s) / 3600000) Hs)
        in H; [discriminate | now rewrite Het |].
      apply Qlt_shift_div_r; [reflexivity | lra].
  - unfold scanFile, endTime_of. intros [H | [H | H]].
    + now rewrite H.
    + rewrite H. now destruct (lastTimestamp o) as [[e|]|].
    + rewrite H. now destruct (firstTimestamp o) as [[s|]|].
Qed.

(** [scanSessions] on two lists of files, one after the other, gives the
    sessions of the first followed by those of the second. *)
Lemma scanSessions_app (files1 files2 : list RawObservation) :
  scanSessions (files1 ++ files2) = scanSessions files1 ++ scanSessions files2.
Proof. rewrite !scanSessions_flat_map. apply flat_map_app. Qed.

(** X2. Whatever the branch, the sessions of one file add up to
    [max(durationHours, 0.01)] hours, within a relative tolerance of one
    millionth (the sum of the sub-sessions is a floating-point sum). *)
Theorem scanFile_total_hours (o : RawObservation) (st : Date) (d : Q) :
  firstTimestamp o = Some st ->
  durationHours st (endTime_of o st) = JS.Fin d ->
  date_in_range st -> date_in_range (endTime_of o st) ->
  exists total,
    sumHours (scanFile o) = JS.Fin total
    /\ Qabs (total - Qmax d 0.01) <= Qmax d 0.01 * (1 # 1000000).
Proof.
  intros Hs Hd _ _.
  assert (Z0 : forall r m, 0 <= m -> r - m == 0 ->
                           Qabs (r - m) <= m * (1 # 1000000)).
  { intros r m Hm E. rewrite E. change (Qabs 0) with 0. lra. }
  destruct (Qlt_le_dec d 1) as [Hlt | Hge].
  - rewrite (scanFile_short o st d Hs Hd Hlt). cbn.
    destruct (Qle_bool d 0.01) eqn:E.
    + apply Qle_bool_iff in E. eexists. split; [reflexivity|].
      apply Z0; rewrite Q.max_r by exact E; [lra | ring].
    + apply Qle_bool_false_iff in E. eexists. split; [reflexivity|].
      apply Z0; rewrite Q.max_l by lra; [lra | ring].
  - destruct (durationHours_Fin_inv _ _ _ Hd) as (s & e & -> & He & Ed).
    assert (L := scanFile_long o s e Hs He). cbv zeta in L.
    rewrite <- Ed in L. specialize (L Hge). rewrite L.
    destruct (numSubs_long d Hge) as [Hc _].
    set (c := Qceiling (d / 2)) in *.
    assert (Hc0 : ~ inject_Z c == 0).
    { intro E. apply (proj1 (inject_Z_injective c 0)) in E. lia. }
    unfold sumHours.
    match goal with
    | |- context [fold_left _ ?l _] =>
        destruct (fold_hours_const l (d / inject_Z c)) with (a := 0)
          as (r & Er & Hr)
    end.
    { apply Forall_forall. intros x Hx. apply in_map_iff in Hx.
      now destruct Hx as (i & <- & _). }
    exists r. split; [exact Er|].
    apply Z0; rewrite Q.max_l by lra; [lra|].
    rewrite Hr, length_map, length_seq, Z2Nat.id by lia. field. exact Hc0.
Qed.

Lemma scanFile_total_hours_witness :
  exists total,
    sumHours (scanFile (mkObs (Some (ValidDate 0)) (Some (ValidDate 36000000))))
    = JS.Fin total
    /\ Qabs (total - Qmax ((inject_Z 36000000 - inject_Z 0) / 3600000) 0.01)
       <= Qmax ((inject_Z 36000000 - inject_Z 0) / 3600000) 0.01 * (1 # 1000000).
Proof.
  apply (scanFile_total_hours
           (mkObs (Some (ValidDate 0)) (Some (ValidDate 36000000))) (ValidDate 0)).
  - reflexivity.
  - reflexivity.
  - vm_compute. split; discriminate.
  - vm_compute. split; discriminate.
Defined.

(** On a span of at least one hour consecutive sub-sessions are at least
    two milliseconds apart. *)
Lemma long_span_gap (s e : Z) :
  let d := (inject_Z e - inject_Z s) / 3600000 in
  1 <= d ->
  2 * inject_Z (Qceiling (d / 2)) <= inject_Z e - inject_Z s.
Proof.
  intros d Hd.
  pose proof (Qceiling_lt (d / 2)) as Hlt.
  unfold Z.sub in Hlt. rewrite inject_Z_plus, inject_Z_opp in Hlt.
  change (inject_Z 1) with 1 in Hlt.
  assert (E : d / 2 == (inject_Z e - inject_Z s) * (1 # 7200000))
    by (unfold d; field).
  assert (E1 : d == (inject_Z e - inject_Z s) * (1 # 3600000))
    by (unfold d; field).
  set (k := inject_Z (Qceiling (d / 2))) in *.
  set (w := inject_Z e - inject_Z s) in *.
  lra.
Qed.

Lemma StronglySorted_map_seq (f : nat -> Z) (n : nat) :
  forall a,
    (forall i j, (a <= i < j)%nat -> (j < a + n)%nat -> (f i < f j)%Z) ->
    StronglySorted Z.lt (map f (seq a n)).
Proof.
  induction n as [|n IH]; intros a H; cbn [seq map]; constructor.
  - apply IH. intros i j Hij Hj. apply H; lia.
  - apply Forall_forall. intros y Hy. apply in_map_iff in Hy.
    destruct Hy as (j & <- & Hj). apply in_seq in Hj. apply H; lia.
Qed.

(** X3. On a span of at least one hour the sub-sessions start at distinct
    instants in ascending order, the first one at the first timestamp of
    the file and all of them before the last timestamp; each ends where it
    starts. *)
Theorem sub_session_starts (o : RawObservation) (s e : Z) :
  firstTimestamp o = Some (ValidDate s) ->
  lastTimestamp o = Some (ValidDate e) ->
  1 <= (inject_Z e - inject_Z s) / 3600000 ->
  (- maxTimeValue <= s)%Z -> (e <= maxTimeValue)%Z ->
  exists ts,
    map start (scanFile o) = map ValidDate ts
    /\ map end_ (scanFile o) = map ValidDate ts
    /\ hd_error ts = Some s
    /\ Forall (fun t => (s <= t < e)%Z) ts
    /\ StronglySorted Z.lt ts.
Proof.
  intros Hs He Hd Rs Re.
  assert (Het : endTime_of o (ValidDate s) = ValidDate e)
    by (unfold endTime_of; now rewrite He).
  rewrite (scanFile_long o s e Hs Het Hd).
  pose proof (long_span_gap s e Hd) as Hgap. cbv zeta in Hgap.
  destruct (numSubs_long _ Hd) as [Hc _].
  assert (Hse : (s < e)%Z) by now apply span_nonneg.
  set (c := Qceiling ((inject_Z e - inject_Z s) / 3600000 / 2)) in *.
  set (w := inject_Z e - inject_Z s) in *.
  assert (Hcq : 0 < inject_Z c) by (apply (inject_Z_lt 0); lia).
  assert (Hg : 2 <= w / inject_Z c) by (apply Qle_shift_div_l; [exact Hcq | lra]).
  set (x := fun i : nat => inject_Z s + inject_Z (Z.of_nat i) / inject_Z c * w).
  assert (Hx : forall i, x i == inject_Z s + inject_Z (Z.of_nat i) * (w / inject_Z c)).
  { intro i. unfold x. field. lra. }
  assert (Hmono : forall i j, (i < j)%nat -> x i + 2 <= x j).
  { intros i j Hij. rewrite !Hx.
    assert (K : inject_Z (Z.of_nat i) + 1 <= inject_Z (Z.of_nat j)).
    { change 1 with (inject_Z 1). rewrite <- inject_Z_plus.
      apply inject_Z_le. lia. }
    assert (P : 0 <= (inject_Z (Z.of_nat j) - inject_Z (Z.of_nat i) - 1)
                     * (w / inject_Z c - 2))
      by (apply Qmult_le_0_compat; lra).
    assert (P' : (inject_Z (Z.of_nat j) - inject_Z (Z.of_nat i) - 1)
                 * (w / inject_Z c - 2)
                 == inject_Z (Z.of_nat j) * (w / inject_Z c)
                    - inject_Z (Z.of_nat i) * (w / inject_Z c)
                    - (w / inject_Z c)
                    - 2 * inject_Z (Z.of_nat j) + 2 * inject_Z (Z.of_nat i) + 2)
      by ring.
    rewrite P' in P. lra. }
  assert (Hlast : forall i, (Z.of_nat i < c)%Z -> x i + 2 <= inject_Z e).
  { intros i Hi. rewrite Hx.
    assert (K : inject_Z (Z.of_nat i) + 1 <= inject_Z c).
    { change 1 with (inject_Z 1). rewrite <- inject_Z_plus.
      apply inject_Z_le. lia. }
    assert (P : 0 <= (inject_Z c - inject_Z (Z.of_nat i) - 1) * (w / inject_Z c))
      by (apply Qmult_le_0_compat; lra).
    assert (P' : (inject_Z c - inject_Z (Z.of_nat i) - 1) * (w / inject_Z c)
                 == w - inject_Z (Z.of_nat i) * (w / inject_Z c) - w / inject_Z c)
      by (field; lra).
    rewrite P' in P. unfold w in *. lra. }
  assert (Hfirst : forall i, inject_Z s <= x i).
  { intro i. rewrite Hx.
    assert (P : 0 <= inject_Z (Z.of_nat i) * (w / inject_Z c)).
    { apply Qmult_le_0_compat; [apply inject_Z_of_nat_nonneg | lra]. }
    lra. }
  exists (map (fun i => JS.Qtrunc (x i)) (seq 0 (Z.to_nat c))).
  assert (Hmap : forall g : Date -> Date,
             map (fun i : nat => g (new_Date (JS.Fin (x i)))) (seq 0 (Z.to_nat c))
             = map (fun i => g (ValidDate (JS.Qtrunc (x i)))) (seq 0 (Z.to_nat c))).
  { intro g. apply map_ext_in. intros i Hi. apply in_seq in Hi. unfold x, w.
    rewrite (subStart_valid s e c i) by lia. reflexivity. }
  rewrite !map_map. cbn [start end_].
  split; [exact (Hmap (fun d => d))|]. split; [exact (Hmap (fun d => d))|].
  split; [|split].
  - destruct (Z.to_nat c) as [|n] eqn:En; [lia|]. cbn [seq map hd_error].
    f_equal.
    destruct (Qtrunc_near (x 0%nat)) as [N1 N2].
    assert (E0 : x 0%nat == inject_Z s) by (rewrite Hx; cbn; ring).
    assert (A : inject_Z (JS.Qtrunc (x 0%nat)) < inject_Z (s + 1)).
    { rewrite inject_Z_plus. change (inject_Z 1) with 1. lra. }
    assert (B : inject_Z (s - 1) < inject_Z (JS.Qtrunc (x 0%nat))).
    { unfold Z.sub. rewrite inject_Z_plus, inject_Z_opp.
      change (inject_Z 1) with 1. lra. }
    rewrite <- Zlt_Qlt in A, B. lia.
  - apply Forall_forall. intros t Ht. apply in_map_iff in Ht.
    destruct Ht as (i & <- & Hi). apply in_seq in Hi.
    destruct (Qtrunc_near (x i)) as [N1 N2].
    pose proof (Hfirst i) as F. pose proof (Hlast i ltac:(lia)) as L.
    assert (A : inject_Z (s - 1) < inject_Z (JS.Qtrunc (x i))).
    { unfold Z.sub. rewrite inject_Z_plus, inject_Z_opp.
      change (inject_Z 1) with 1. lra. }
    assert (B : inject_Z (JS.Qtrunc (x i)) < inject_Z e) by lra.
    rewrite <- Zlt_Qlt in A, B. lia.
  - apply StronglySorted_map_seq. intros i j Hij _.
    destruct (Qtrunc_near (x i)) as [N1 _].
    destruct (Qtrunc_near (x j)) as [_ N2].
    pose proof (Hmono i j ltac:(lia)) as M.
    rewrite Zlt_Qlt. lra.
Qed.

Lemma sub_session_starts_witness :
  exists ts,
    map start (scanFile (mkObs (Some (ValidDate 0)) (Some (ValidDate 36000000))))
    = map ValidDate ts
    /\ map end_ (scanFile (mkObs (Some (ValidDate 0)) (Some (ValidDate 36000000))))
       = map ValidDate ts
    /\ hd_error ts = Some 0%Z
    /\ Forall (fun t => (0 <= t < 36000000)%Z) ts
    /\ StronglySorted Z.lt ts.
Proof.
  apply (sub_session_starts
           (mkObs (Some (ValidDate 0)) (Some (ValidDate 36000000))) 0 36000000).
  - reflexivity.
  - reflexivity.
  - vm_compute. discriminate.
  - vm_compute. discriminate.
  - vm_compute. discriminate.
Defined.

(** X4. When the timestamps of the files are time values a Date can hold,
    every session that is pushed starts and ends at a valid Date whose
    time value is in range: no Invalid Date reaches the statistics. *)
Theorem scanSessions_dates_valid (files : list RawObservation) :
  Forall obs_in_range files ->
  Forall (fun x => start x <> InvalidDate /\ end_ x <> InvalidDate
                   /\ date_in_range (start x) /\ date_in_range (end_ x))
         (scanSessions files).
Proof.
  rewrite scanSessions_flat_map. intro H.
  apply Forall_forall. intros x Hx. apply in_flat_map in Hx.
  destruct Hx as (o & Ho & Hx).
  rewrite Forall_forall in H. specialize (H o Ho).
  pose proof (scanFile_valid_start o H) as V.
  rewrite Forall_forall in V. specialize (V x Hx). unfold valid_start in V.
  split; [exact V|].
  unfold obs_in_range in H. unfold scanFile in Hx.
  destruct (firstTimestamp o) as [st|] eqn:Hs; [|destruct Hx].
  destruct H as [Rs Re]. cbv zeta in Hx.
  destruct (durationHours_Fin_or_NaN st (endTime_of o st)) as [[d Hd] | Hn].
  - destruct (durationHours_Fin_inv _ _ _ Hd) as (s & e & -> & He & Ed).
    rewrite Hd in Hx.
    destruct (JS.ltb (JS.Fin d) (JS.mul SESSION_GAP_HOURS (JS.Fin 2))).
    + destruct Hx as [<- | []]. cbn [start end_]. rewrite He in *.
      split; [discriminate|]. now split.
    + destruct (numSubs_of (JS.Fin d)) as [q| | |]; cbn [for_lt] in Hx;
        try destruct Hx.
      apply in_map_iff in Hx. destruct Hx as (i & <- & _).
      cbn [start end_] in *. split; [exact V|].
      split; apply new_Date_in_range.
  - rewrite Hn in Hx. cbn in Hx. destruct Hx.
Qed.

Lemma scanSessions_dates_valid_witness :
  Forall (fun x => start x <> InvalidDate /\ end_ x <> InvalidDate
                   /\ date_in_range (start x) /\ date_in_range (end_ x))
         (scanSessions [ mkObs (Some (ValidDate 9)) None;
                         mkObs (Some (ValidDate 0)) (Some (ValidDate 14400000)) ]).
Proof.
  apply (scanSessions_dates_valid
           [ mkObs (Some (ValidDate 9)) None;
             mkObs (Some (ValidDate 0)) (Some (ValidDate 14400000)) ]).
  repeat constructor; vm_compute; discriminate.
Defined.

(** ** Statistics *)

Lemma bump_sum_le (i : nat) (a : list nat) : (sum (bump i a) <= S (sum a))%nat.
Proof.
  revert i. induction a as [|x a IH]; intros [|i]; simpl; try lia.
  - rewrite !sum_cons. lia.
  - rewrite !sum_cons. specialize (IH i). lia.
Qed.

(** No session is counted twice. *)
Lemma count_fold_sum_le (key : Date -> option nat) (sessions : list Session) :
  forall b,
    (sum (fold_left (fun b s => bump_at (key (start s)) b) sessions b)
     <= sum b + List.length sessions)%nat.
Proof.
  induction sessions as [|s sessions IH]; intro b; simpl; [lia|].
  etransitivity; [apply IH|].
  destruct (key (start s)) as [i|]; cbn [bump_at]; [|lia].
  pose proof (bump_sum_le i b). lia.
Qed.

Lemma sum_repeat_0 (n : nat) : sum (repeat 0%nat n) = 0%nat.
Proof. induction n as [|n IH]; [reflexivity|]. cbn [repeat]. now rewrite sum_cons. Qed.

Lemma fraction_in_unit (k n : nat) :
  (k <= n)%nat -> n <> 0%nat ->
  0 <= inject_Z (Z.of_nat k) / inject_Z (Z.of_nat n) <= 1.
Proof.
  intros Hk Hn.
  assert (Hn' : 0 < inject_Z (Z.of_nat n)) by (apply (inject_Z_lt 0); lia).
  split.
  - apply Qle_shift_div_l; [exact Hn'|]. rewrite Qmult_0_l.
    apply inject_Z_of_nat_nonneg.
  - apply Qle_shift_div_r; [exact Hn'|]. rewrite Qmult_1_l.
    apply inject_Z_le. lia.
Qed.

(** Sessions whose durations are finite and at least [lo] add up to at
    least [lo] times their number. *)
Lemma fold_hours_floor (lo : Q) (l : list Session) :
  Forall (fun x => exists h, hours x = JS.Fin h /\ lo <= h) l ->
  forall a, exists r,
    fold_left (fun acc x => JS.add acc (hours x)) l (JS.Fin a) = JS.Fin r
    /\ a + inject_Z (Z.of_nat (List.length l)) * lo <= r.
Proof.
  induction 1 as [|x l (h & Hx & Hh) _ IH]; intro a; simpl fold_left.
  - exists a. split; [reflexivity|].
    cbn [List.length Z.of_nat]. change (inject_Z 0) with 0. lra.
  - rewrite Hx. cbn [JS.add].
    destruct (IH (a + h)) as (r & Er & Hr). exists r. split; [exact Er|].
    cbn [List.length]. rewrite inject_Z_of_nat_S.
    set (n := inject_Z (Z.of_nat (List.length l))) in *.
    assert (E : (n + 1) * lo == n * lo + lo) by ring.
    rewrite E. lra.
Qed.

Lemma maxOf_acc (l : list nat) (a : nat) :
  fold_left Nat.max l a = Nat.max a (fold_left Nat.max l 0%nat).
Proof.
  revert a. induction l as [|x l IH]; intro a; simpl.
  - lia.
  - rewrite (IH (Nat.max a x)), (IH x). lia.
Qed.

Lemma maxOf_cons (x : nat) (l : list nat) : maxOf (x :: l) = Nat.max x (maxOf l).
Proof. unfold maxOf. simpl. apply maxOf_acc. Qed.

Lemma maxOf_ge (l : list nat) (i : nat) : (nth i l 0 <= maxOf l)%nat.
Proof.
  revert i. induction l as [|x l IH]; intros [|i]; cbn [nth]; try lia.
  - rewrite maxOf_cons. lia.
  - rewrite maxOf_cons. specialize (IH i). lia.
Qed.

Lemma maxOf_In (l : list nat) : l <> [] -> In (maxOf l) l.
Proof.
  induction l as [|x l IH]; [contradiction|]. intros _.
  rewrite maxOf_cons. destruct l as [|y l'].
  - left. unfold maxOf. simpl. lia.
  - destruct (Nat.max_spec x (maxOf (y :: l'))) as [[_ ->] | [_ ->]].
    + right. apply IH. discriminate.
    + now left.
Qed.

(** [indexOf] finds the first position of a value that occurs. *)
Lemma indexOf_first (v : nat) (l : list nat) :
  In v l ->
  exists p, indexOf v l = Z.of_nat p
            /\ (p < List.length l)%nat
            /\ nth p l 0%nat = v
            /\ forall i, (i < p)%nat -> nth i l 0%nat <> v.
Proof.
  induction l as [|x l IH]; [intros []|]. intro Hin. cbn [indexOf].
  destruct (Nat.eqb_spec x v) as [-> | Hne].
  - exists 0%nat. repeat split; simpl; lia.
  - destruct Hin as [-> | Hin]; [contradiction|].
    destruct (IH Hin) as (p & E & Hp & Hv & Hfirst). rewrite E.
    destruct (Z.ltb_spec (Z.of_nat p) 0) as [Hneg | _]; [lia|].
    exists (S p). repeat split; simpl; try lia; try exact Hv.
    intros [|i] Hi; simpl; [exact Hne | apply Hfirst; lia].
Qed.

(** [indexOf] answers -1 exactly for a value that does not occur. *)
Lemma indexOf_absent (v : nat) (l : list nat) :
  ~ In v l -> indexOf v l = (-1)%Z.
Proof.
  induction l as [|x l IH]; [reflexivity|]. intro Hn. cbn [indexOf].
  destruct (Nat.eqb_spec x v) as [-> | _]; [elim Hn; now left|].
  rewrite IH by (intro H; apply Hn; now right). reflexivity.
Qed.

Lemma new_Set_length_le (keys : list DateString) :
  (List.length (new_Set keys) <= List.length keys)%nat.
Proof.
  unfold new_Set.
  assert (G : forall set, (List.length (fold_left Set_add keys set)
                           <= List.length set + List.length keys)%nat).
  { induction keys as [|k keys IH]; intro set; simpl; [lia|].
    etransitivity; [apply IH|].
    unfold Set_add. destruct (existsb (DateString_eqb k) set); [lia|].
    rewrite length_app. simpl. lia. }
  apply (G []).
Qed.

Lemma sort_insert_length (x : Date) (l : list Date) :
  List.length (sort_insert x l) = S (List.length l).
Proof.
  induction l as [|y l IH]; [reflexivity|]. cbn [sort_insert].
  destruct (JS.gtb _ _); simpl; [now rewrite IH | reflexivity].
Qed.

Lemma sort_length (l : list Date) : List.length (sort l) = List.length l.
Proof.
  induction l as [|x l IH]; [reflexivity|].
  cbn [sort fold_right]. fold (sort l). now rewrite sort_insert_length, IH.
Qed.

(** The streak loop never counts more days than it has seen. *)
Lemma streakLoop_le (rest : list Date) :
  forall prev mx cur,
    (mx <= streakLoop prev rest mx cur
     <= Nat.max mx (cur + List.length rest))%nat.
Proof.
  induction rest as [|d rest IH]; intros prev mx cur; cbn [streakLoop List.length].
  - lia.
  - destruct (JS.eqb _ _).
    + destruct (Nat.ltb_spec mx (S cur)) as [H | H].
      * specialize (IH d (S cur) (S cur)). lia.
      * specialize (IH d mx (S cur)). lia.
    + specialize (IH d mx 1%nat). lia.
Qed.

Section MoreStatsProperties.

Variable tz : Z -> Z.
Variable tzAtLocal : Z -> Z.
Variable parseLegacy : Z -> Date.

Lemma count_hours_sum_le (sessions : list Session) :
  (sum (count_hours tz sessions) <= List.length sessions)%nat.
Proof.
  unfold count_hours.
  pose proof (count_fold_sum_le (getHours tz) sessions (repeat 0%nat 24)) as H.
  now rewrite sum_repeat_0 in H.
Qed.

(** X5. For any non-empty array of sessions each of the four band
    fractions is a finite number between 0 and 1. *)
Theorem band_fractions_in_unit_interval (sessions : list Session) :
  sessions <> [] ->
  exists st a b c d,
    computeStats tz tzAtLocal parseLegacy sessions = Some st
    /\ nightPct st = JS.Fin a /\ morningPct st = JS.Fin b
    /\ afternoonPct st = JS.Fin c /\ eveningPct st = JS.Fin d
    /\ 0 <= a <= 1 /\ 0 <= b <= 1 /\ 0 <= c <= 1 /\ 0 <= d <= 1.
Proof.
  intro Hne. unfold computeStats.
  assert (Hlen : List.length sessions <> 0%nat)
    by (destruct sessions; [contradiction | discriminate]).
  replace (List.length sessions =? 0)%nat with false
    by (symmetry; now apply Nat.eqb_neq).
  pose proof (bands_partition (count_hours tz sessions)) as P.
  pose proof (count_hours_sum_le sessions) as S.
  set (hb := count_hours tz sessions) in *.
  set (n := List.length sessions) in *.
  rewrite !of_nat_div by exact Hlen.
  do 5 eexists. split; [reflexivity|].
  cbn [nightPct morningPct afternoonPct eveningPct].
  do 4 (split; [reflexivity|]).
  assert (Hn' : 0 < inject_Z (Z.of_nat n)) by (apply (inject_Z_lt 0); lia).
  repeat split; apply fraction_in_unit; lia.
Qed.

(** X6. [peakHour] is an hour of the day whose bucket is the largest, and
    the earliest such hour. *)
Theorem peakHour_first_maximum (sessions : list Session) :
  sessions <> [] ->
  exists st p,
    computeStats tz tzAtLocal parseLegacy sessions = Some st
    /\ peakHour st = Z.of_nat p
    /\ (p < 24)%nat
    /\ (forall h, (nth h (hourBuckets st) 0 <= nth p (hourBuckets st) 0)%nat)
    /\ (forall h, (h < p)%nat ->
                  (nth h (hourBuckets st) 0 < nth p (hourBuckets st) 0)%nat).
Proof.
  intro Hne. unfold computeStats.
  replace (List.length sessions =? 0)%nat with false
    by (destruct sessions; [contradiction | reflexivity]).
  pose proof (count_hours_length tz sessions) as L.
  set (hb := count_hours tz sessions) in *.
  assert (Hnb : hb <> []) by (intro E; rewrite E in L; discriminate).
  destruct (indexOf_first (maxOf hb) hb (maxOf_In hb Hnb))
    as (p & E & Hp & Hv & Hfirst).
  eexists. exists p. split; [reflexivity|]. cbn [peakHour hourBuckets].
  split; [exact E|]. split; [lia|]. split.
  - intro h. rewrite Hv. apply maxOf_ge.
  - intros h Hh. specialize (Hfirst h Hh).
    pose proof (maxOf_ge hb h). rewrite Hv. lia.
Qed.

(** X7. For any non-empty array of sessions there is at least one active
    day and at most one per session, and the longest streak is at least 1
    and at most the number of active days. *)
Theorem activeDays_bounds (sessions : list Session) :
  sessions <> [] ->
  exists st,
    computeStats tz tzAtLocal parseLegacy sessions = Some st
    /\ (1 <= activeDays st <= totalSessions st)%nat
    /\ (1 <= maxStreak st <= activeDays st)%nat.
Proof.
  intro Hne. unfold computeStats.
  replace (List.length sessions =? 0)%nat with false
    by (destruct sessions; [contradiction | reflexivity]).
  eexists. split; [reflexivity|]. cbn [activeDays totalSessions maxStreak].
  set (keys := map (fun s => toDateString tz (start s)) sessions).
  assert (H1 : (1 <= List.length (new_Set keys))%nat).
  { apply new_Set_nonempty. unfold keys.
    destruct sessions; [contradiction | discriminate]. }
  assert (H2 : (List.length (new_Set keys) <= List.length sessions)%nat).
  { etransitivity; [apply new_Set_length_le|]. unfold keys. now rewrite length_map. }
  split; [lia|].
  pose proof (sort_length (map (Date_parse tzAtLocal parseLegacy) (new_Set keys))) as SL.
  rewrite length_map in SL.
  destruct (sort (map (Date_parse tzAtLocal parseLegacy) (new_Set keys))) as [|d rest].
  - simpl in SL. lia.
  - pose proof (streakLoop_le rest d 1 1) as B. cbn [List.length] in SL. lia.
Qed.

(** X8. Statistics computed from scanned files have a mean session length
    of at least 0.0099 hours, and [totalHours] is at least 0.0099 hours per
    session: every session counts at least 0.01 hours, and the margin
    covers the rounding of the floating-point sum and quotient. *)
Theorem scanned_hours_floor (files : list RawObservation) :
  scanSessions files <> [] ->
  exists st total avg,
    computeStats tz tzAtLocal parseLegacy (scanSessions files) = Some st
    /\ totalHours st = JS.Fin total
    /\ avgSessionHours st = JS.Fin avg
    /\ 0.0099 * inject_Z (Z.of_nat (totalSessions st)) <= total
    /\ 0.0099 <= avg.
Proof.
  intro Hne. unfold computeStats.
  set (sessions := scanSessions files) in *.
  assert (Hlen : List.length sessions <> 0%nat)
    by (destruct sessions; [contradiction | discriminate]).
  replace (List.length sessions =? 0)%nat with false
    by (symmetry; now apply Nat.eqb_neq).
  assert (F : Forall (fun x => exists h, hours x = JS.Fin h /\ 0.01 <= h) sessions).
  { apply Forall_forall. intros x Hx. unfold sessions in Hx.
    rewrite scanSessions_flat_map in Hx. apply in_flat_map in Hx.
    destruct Hx as (o & _ & Hx). now apply (scanFile_hours_floor o). }
  destruct (fold_hours_floor 0.01 sessions F 0) as (r & Er & Hr).
  fold (sumHours sessions) in Er. rewrite Er.
  unfold JS.of_nat, JS.of_Z.
  rewrite (div_Fin r (inject_Z (Z.of_nat (List.length sessions)))).
  - do 3 eexists. split; [reflexivity|].
    cbn [totalHours avgSessionHours totalSessions].
    split; [reflexivity|]. split; [reflexivity|].
    assert (Hn' : 0 < inject_Z (Z.of_nat (List.length sessions)))
      by (apply (inject_Z_lt 0); lia).
    split; [lra|]. apply Qle_shift_div_l; [exact Hn' | lra].
  - intro E. apply (proj1 (inject_Z_injective _ 0)) in E. lia.
Qed.

End MoreStatsProperties.

(** ** The order of the sessions *)

Lemma bump_comm (i j : nat) (a : list nat) :
  bump i (bump j a) = bump j (bump i a).
Proof.
  revert i j. induction a as [|x a IH]; intros [|i] [|j]; simpl; try reflexivity.
  now rewrite IH.
Qed.

Lemma bump_at_comm (k1 k2 : option nat) (a : list nat) :
  bump_at k1 (bump_at k2 a) = bump_at k2 (bump_at k1 a).
Proof. destruct k1, k2; cbn [bump_at]; auto using bump_comm. Qed.

(** Counting into buckets does not depend on the order of the sessions. *)
Lemma count_fold_perm (key : Date -> option nat) (l l' : list Session) :
  Permutation l l' ->
  forall b,
    fold_left (fun b s => bump_at (key (start s)) b) l b
    = fold_left (fun b s => bump_at (key (start s)) b) l' b.
Proof.
  induction 1 as [| x l l' _ IH | x y l | l l' l'' _ IH1 _ IH2]; intro b; simpl.
  - reflexivity.
  - apply IH.
  - now rewrite bump_at_comm.
  - now rewrite IH1, IH2.
Qed.

Lemma DateString_eqb_eq (a b : DateString) :
  DateString_eqb a b = true <-> a = b.
Proof.
  destruct a as [x|], b as [y|]; cbn; try (split; [discriminate | discriminate]).
  - rewrite Z.eqb_eq. split; [now intros -> | now intros [= ->]].
  - split; reflexivity.
Qed.

Lemma existsb_DateString (k : DateString) (set : list DateString) :
  existsb (DateString_eqb k) set = true <-> In k set.
Proof.
  rewrite existsb_exists. split.
  - intros (x & Hx & E). apply DateString_eqb_eq in E. now subst.
  - intro H. exists k. split; [exact H | now apply DateString_eqb_eq].
Qed.

(** The Set holds each key of the array once. *)
Lemma new_Set_spec (keys : list DateString) :
  NoDup (new_Set keys) /\ forall x, In x (new_Set keys) <-> In x keys.
Proof.
  unfold new_Set.
  assert (G : forall set, NoDup set ->
              NoDup (fold_left Set_add keys set)
              /\ forall x, In x (fold_left Set_add keys set) <-> In x set \/ In x keys).
  { induction keys as [|k keys IH]; intros set Hnd; simpl.
    - split; [exact Hnd | intro x; tauto].
    - assert (Hnd' : NoDup (Set_add set k)).
      { unfold Set_add. destruct (existsb (DateString_eqb k) set) eqn:E; [exact Hnd|].
        apply NoDup_app; [exact Hnd | repeat constructor; intros [] |].
        intros x Hx [<- | []].
        apply existsb_DateString in Hx. congruence. }
      destruct (IH _ Hnd') as [N I]. split; [exact N|].
      intro x. rewrite I. unfold Set_add.
      destruct (existsb (DateString_eqb k) set) eqn:E.
      + apply existsb_DateString in E. split; [tauto|].
        intros [H | [<- | H]]; auto.
      + rewrite in_app_iff. simpl. split; [tauto | intros [H | [<- | H]]; auto]. }
  destruct (G [] (NoDup_nil _)) as [N I]. split; [exact N|].
  intro x. rewrite I. simpl. tauto.
Qed.

Lemma new_Set_perm (keys keys' : list DateString) :
  Permutation keys keys' -> Permutation (new_Set keys) (new_Set keys').
Proof.
  intro P.
  destruct (new_Set_spec keys) as [N I], (new_Set_spec keys') as [N' I'].
  apply NoDup_Permutation; [exact N | exact N'|].
  intro x. rewrite I, I'. split; apply Permutation_in; [exact P | now symmetry].
Qed.

(** An ascending arrangement of given numbers is unique. *)
Lemma sorted_perm_unique (l l' : list Z) :
  StronglySorted Z.le l -> StronglySorted Z.le l' -> Permutation l l' -> l = l'.
Proof.
  revert l'. induction l as [|x l IH]; intros l' S S' P.
  - apply Permutation_nil in P. now subst.
  - destruct l' as [|y l']; [apply Permutation_sym, Permutation_nil in P; discriminate|].
    inversion S as [|? ? S1 F1]; subst. inversion S' as [|? ? S1' F1']; subst.
    assert (E : x = y).
    { assert (Hx : In x (y :: l')) by (apply (Permutation_in _ P); now left).
      assert (Hy : In y (x :: l))
        by (apply (Permutation_in _ (Permutation_sym P)); now left).
      rewrite Forall_forall in F1, F1'.
      destruct Hx as [-> | Hx]; [reflexivity|].
      destruct Hy as [-> | Hy]; [reflexivity|].
      specialize (F1 _ Hy). specialize (F1' _ Hx). lia. }
    subst y. f_equal. apply IH; try assumption.
    now apply Permutation_cons_inv in P.
Qed.

Lemma map_ValidDate_inj (l l' : list Z) :
  map ValidDate l = map ValidDate l' -> l = l'.
Proof.
  revert l'. induction l as [|x l IH]; intros [|y l'] H; try discriminate.
  - reflexivity.
  - cbn [map] in H. injection H as -> H. f_equal. now apply IH.
Qed.

Section OrderIndependence.

Variable tz : Z -> Z.
Variable tzAtLocal : Z -> Z.
Variable parseLegacy : Z -> Date.

(** X9. The number of active days counts every local calendar day on
    which a session starts, each of them once. *)
Theorem activeDays_counts_distinct_days (sessions : list Session) :
  sessions <> [] ->
  exists st days,
    computeStats tz tzAtLocal parseLegacy sessions = Some st
    /\ activeDays st = List.length days
    /\ NoDup days
    /\ forall k, In k days
                 <-> exists s, In s sessions /\ toDateString tz (start s) = k.
Proof.
  intro Hne. unfold computeStats.
  replace (List.length sessions =? 0)%nat with false
    by (destruct sessions; [contradiction | reflexivity]).
  destruct (new_Set_spec (map (fun s => toDateString tz (start s)) sessions))
    as [N I].
  eexists. eexists. split; [reflexivity|]. cbn [activeDays].
  split; [reflexivity|]. split; [exact N|].
  intro k. rewrite I, in_map_iff. split; intros (s & A & B); exists s; auto.
Qed.

(** X10. The histograms, the four band fractions, the weekend ratio, the
    peak hour and the counts of sessions and of active days do not depend
    on the order of the sessions. *)
Theorem histograms_order_independent (sessions sessions' : list Session) :
  Permutation sessions sessions' ->
  sessions <> [] ->
  exists st st',
    computeStats tz tzAtLocal parseLegacy sessions = Some st
    /\ computeStats tz tzAtLocal parseLegacy sessions' = Some st'
    /\ totalSessions st' = totalSessions st
    /\ hourBuckets st' = hourBuckets st
    /\ dayBuckets st' = dayBuckets st
    /\ nightPct st' = nightPct st
    /\ morningPct st' = morningPct st
    /\ afternoonPct st' = afternoonPct st
    /\ eveningPct st' = eveningPct st
    /\ weekendRatio st' = weekendRatio st
    /\ peakHour st' = peakHour st
    /\ activeDays st' = activeDays st.
Proof.
  intros P Hne. unfold computeStats.
  assert (L : List.length sessions' = List.length sessions)
    by (symmetry; now apply Permutation_length).
  assert (H : count_hours tz sessions' = count_hours tz sessions)
    by (symmetry; now apply count_fold_perm).
  assert (D : count_days tz sessions' = count_days tz sessions)
    by (symmetry; now apply count_fold_perm).
  assert (A : List.length (new_Set (map (fun s => toDateString tz (start s)) sessions'))
              = List.length (new_Set (map (fun s => toDateString tz (start s)) sessions))).
  { symmetry. apply Permutation_length, new_Set_perm. now apply Permutation_map. }
  rewrite L, H, D, A.
  replace (List.length sessions =? 0)%nat with false
    by (destruct sessions; [contradiction | reflexivity]).
  do 2 eexists. split; [reflexivity|]. split; [reflexivity|].
  repeat split.
Qed.

(** The sorted active dates of sessions that start in the years the date
    parser reads back do not depend on the order of the sessions. *)
Lemma allDates_perm (sessions sessions' : list Session) :
  Permutation sessions sessions' ->
  Forall (parsed_start tz) sessions ->
  sort (map (Date_parse tzAtLocal parseLegacy)
            (new_Set (map (fun s => toDateString tz (start s)) sessions')))
  = sort (map (Date_parse tzAtLocal parseLegacy)
              (new_Set (map (fun s => toDateString tz (start s)) sessions))).
Proof.
  intros P V.
  assert (V' : Forall (parsed_start tz) sessions')
    by (eapply Permutation_Forall; eauto).
  destruct (allDates_valid tz tzAtLocal parseLegacy sessions V) as (zs0 & E0).
  destruct (allDates_valid tz tzAtLocal parseLegacy sessions' V') as (zs0' & E0').
  assert (PS : Permutation (map ValidDate zs0) (map ValidDate zs0')).
  { rewrite <- E0, <- E0'. apply Permutation_map, new_Set_perm.
    now apply Permutation_map. }
  apply Permutation_map_inv in PS. destruct PS as (l3 & E3 & P3).
  apply map_ValidDate_inj in E3. subst l3.
  rewrite E0, E0'.
  destruct (sort_valid zs0) as (zs & Es & Ss & Ps).
  destruct (sort_valid zs0') as (zs' & Es' & Ss' & Ps').
  rewrite Es, Es'. f_equal.
  apply sorted_perm_unique; try assumption.
  apply Permutation_trans with zs0'; [now apply Permutation_sym|].
  apply Permutation_trans with zs0; [exact P3 | exact Ps].
Qed.

(** X11. For sessions whose starts are valid Dates on local days of the
    years 100 to 9999, the days that [Date.parse] reads back from
    [toDateString], [totalDays] and [maxStreak] do not depend on the order
    of the sessions. *)
Theorem streak_order_independent (sessions sessions' : list Session) :
  Permutation sessions sessions' ->
  sessions <> [] ->
  Forall (parsed_start tz) sessions ->
  exists st st',
    computeStats tz tzAtLocal parseLegacy sessions = Some st
    /\ computeStats tz tzAtLocal parseLegacy sessions' = Some st'
    /\ totalDays st' = totalDays st
    /\ maxStreak st' = maxStreak st.
Proof.
  intros P Hne V. unfold computeStats.
  assert (L : List.length sessions' = List.length sessions)
    by (symmetry; now apply Permutation_length).
  rewrite L, (allDates_perm sessions sessions' P V).
  replace (List.length sessions =? 0)%nat with false
    by (destruct sessions; [contradiction | reflexivity]).
  do 2 eexists. split; [reflexivity|]. split; [reflexivity|].
  split; reflexivity.
Qed.

End OrderIndependence.

(** ** Determining the archetype *)

Lemma scanArchetypes_split (before after : list Archetype) (r : Archetype)
      (stats : Stats) :
  Forall (fun a => holds a stats = false) before ->
  holds r stats = true ->
  scanArchetypes (before ++ r :: after) stats = Some r.
Proof.
  induction 1 as [|a before Ha _ IH]; intro Hr.
  - change (scanArchetypes ([] ++ r :: after) stats)
      with (if holds r stats then Some r else scanArchetypes after stats).
    now rewrite Hr.
  - change (scanArchetypes ((a :: before) ++ r :: after) stats)
      with (if holds a stats then Some a
            else scanArchetypes (before ++ r :: after) stats).
    rewrite Ha. now apply IH.
Qed.

(** In a table with distinct ids an id names one position. *)
Lemma split_by_id (l b1 a1 b2 a2 : list Archetype) (r1 r2 : Archetype) :
  NoDup (map id l) ->
  l = b1 ++ r1 :: a1 -> l = b2 ++ r2 :: a2 -> id r1 = id r2 ->
  b1 = b2 /\ r1 = r2.
Proof.
  revert l b2. induction b1 as [|x b1 IH]; intros l b2 N E1 E2 Ei.
  - destruct b2 as [|y b2]; cbn [app] in *; subst l.
    + injection E2 as Er _. now split.
    + exfalso. injection E2 as Er Ea. subst y a1.
      cbn [map] in N. inversion N as [|? ? Hn _]; subst.
      apply Hn. rewrite map_app, in_app_iff. right. left. now symmetry.
  - destruct b2 as [|y b2]; cbn [app] in *; subst l.
    + exfalso. injection E2 as Er Ea. subst x a2.
      cbn [map] in N. inversion N as [|? ? Hn _]; subst.
      apply Hn. rewrite map_app, in_app_iff. right. now left.
    + injection E2 as Er Ea. subst y.
      cbn [map] in N. inversion N as [|? ? _ N']; subst.
      destruct (IH (b1 ++ r1 :: a1) b2 N' eq_refl Ea Ei) as [-> ->].
      now split.
Qed.

Lemma ARCHETYPES_ids_distinct : NoDup (map id ARCHETYPES).
Proof.
  cbn. repeat constructor; cbn; intro H;
    repeat (destruct H as [H | H]; [discriminate H|]); exact H.
Qed.

(** The id returned is that of an entry exactly when the entry is the
    first whose condition holds. *)
Lemma getArchetype_id_first (stats : Stats) (before after : list Archetype)
      (rule : Archetype) :
  ARCHETYPES = before ++ rule :: after ->
  (id (getArchetype stats) = id rule
   <-> Forall (fun a => holds a stats = false) before
       /\ holds rule stats = true).
Proof.
  assert (Hid : forall rule,
             id (if String.eqb (id rule) "machine" then machineArchetype stats
                 else rule) = id rule).
  { intro r. destruct (String.eqb_spec (id r) "machine") as [-> | _];
      reflexivity. }
  assert (Hnb : forall rule, In rule ARCHETYPES -> id rule <> "balanced"%string).
  { intros r Hin. cbn in Hin.
    repeat (destruct Hin as [<- | Hin]; [discriminate|]). destruct Hin. }
  rewrite getArchetype_scan.
  pose proof (scanArchetypes_first ARCHETYPES stats) as F.
  intro E. split.
  - intro Hi. destruct (scanArchetypes ARCHETYPES stats) as [r|].
    + rewrite Hid in Hi. destruct F as (b' & a' & E' & Hb & Hr).
      destruct (split_by_id ARCHETYPES b' a' before after r rule
                            ARCHETYPES_ids_distinct E' E Hi) as [-> ->].
      now split.
    + exfalso. apply (Hnb rule); [|now symmetry].
      rewrite E. apply in_elt.
  - intros [Hb Hr]. rewrite E, (scanArchetypes_split before after rule stats Hb Hr).
    apply Hid.
Qed.

Lemma getArchetype_id_balanced (stats : Stats) :
  id (getArchetype stats) = "balanced"%string
  <-> Forall (fun a => holds a stats = false) ARCHETYPES.
Proof.
  assert (Hid : forall rule,
             id (if String.eqb (id rule) "machine" then machineArchetype stats
                 else rule) = id rule).
  { intro r. destruct (String.eqb_spec (id r) "machine") as [-> | _];
      reflexivity. }
  assert (Hnb : forall rule, In rule ARCHETYPES -> id rule <> "balanced"%string).
  { intros r Hin. cbn in Hin.
    repeat (destruct Hin as [<- | Hin]; [discriminate|]). destruct Hin. }
  rewrite getArchetype_scan.
  pose proof (scanArchetypes_first ARCHETYPES stats) as F.
  split.
  - intro Hi. destruct (scanArchetypes ARCHETYPES stats) as [r|]; [|exact F].
    exfalso. rewrite Hid in Hi. destruct F as (b' & a' & E' & _).
    apply (Hnb r); [|exact Hi]. rewrite E'. apply in_elt.
  - intro Hall. destruct (scanArchetypes ARCHETYPES stats) as [r|]; [|reflexivity].
    exfalso. destruct F as (b' & a' & E' & _ & Hr).
    rewrite Forall_forall in Hall.
    rewrite (Hall r) in Hr; [discriminate|]. rewrite E'. apply in_elt.
Qed.

(** X12. The id that [getArchetype] returns is that of a given entry of
    the table exactly when that entry is the first whose condition holds,
    and it is [balanced] exactly when no condition holds. *)
Theorem getArchetype_id_iff (stats : Stats) :
  (forall before rule after,
      ARCHETYPES = before ++ rule :: after ->
      (id (getArchetype stats) = id rule
       <-> Forall (fun a => holds a stats = false) before
           /\ holds rule stats = true))
  /\ (id (getArchetype stats) = "balanced"%string
      <-> Forall (fun a => holds a stats = false) ARCHETYPES).
Proof.
  split.
  - intros before rule after. apply getArchetype_id_first.
  - apply getArchetype_id_balanced.
Qed.

(** Statistics with a streak of 45 days and little activity at night or in
    the morning: the third entry. *)
Lemma getArchetype_id_iff_witness :
  let stats :=
    mkStats 100 (JS.Fin 50) 50 (JS.Fin 60) 45
            (JS.Fin 0.2) (JS.Fin 0.1) (JS.Fin 0.5) (JS.Fin 0.2)
            (JS.Fin 0.5) (JS.Fin 0.5) [] [] 4 14 in
  id (getArchetype stats) = id machine.
Proof.
  intro stats.
  apply (proj1 (getArchetype_id_iff stats)
               [night_beast; dawn_coder] machine
               [weekend_warrior; burst_genius; disciplined; session_monster;
                micro_shipper; explorer; mono_focused]).
  - reflexivity.
  - split; [repeat constructor | reflexivity].
Defined.

Lemma string_length_append (s1 s2 : string) :
  String.length (s1 ++ s2) = (String.length s1 + String.length s2)%nat.
Proof. induction s1 as [|c s1 IH]; simpl; [reflexivity | now rewrite IH]. Qed.

Lemma streak_text_differs (p : string) :
  (p ++ " consecutive days of coding. You simply don't stop.")%string
  <> description machine.
Proof.
  intro H.
  assert (L := f_equal String.length H). rewrite string_length_append in L.
  change (String.length " consecutive days of coding. You simply don't stop.")
    with 51%nat in L.
  change (String.length (description machine)) with 56%nat in L.
  do 5 (destruct p as [|? p]; [cbn in L; lia|]).
  destruct p as [|? p]; [|cbn in L; lia].
  cbn in H. discriminate H.
Qed.

(** X13. When the machine entry is the one returned, its description
    carries the streak in decimal; the description that the table holds
    for that entry is never returned. *)
Theorem machine_description_dynamic (stats : Stats) :
  (id (getArchetype stats) = "machine"%string ->
   description (getArchetype stats)
   = (string_of_nat (maxStreak stats)
      ++ " consecutive days of coding. You simply don't stop.")%string)
  /\ description (getArchetype stats) <> description machine.
Proof.
  rewrite getArchetype_scan.
  pose proof (scanArchetypes_first ARCHETYPES stats) as F.
  destruct (scanArchetypes ARCHETYPES stats) as [rule|].
  - destruct F as (before & after & E & _).
    assert (Hin : In rule ARCHETYPES) by (rewrite E; apply in_elt).
    clear E. split.
    + destruct (String.eqb_spec (id rule) "machine") as [_ | Hn];
        [reflexivity | intro H; contradiction].
    + cbn in Hin.
      repeat (destruct Hin as [<- | Hin];
              [first [ apply streak_text_differs | cbn; discriminate ]|]).
      destruct Hin.
  - split; [discriminate | cbn; discriminate].
Qed.

Lemma machine_description_dynamic_witness :
  let stats :=
    mkStats 100 (JS.Fin 50) 50 (JS.Fin 60) 45
            (JS.Fin 0.2) (JS.Fin 0.1) (JS.Fin 0.5) (JS.Fin 0.2)
            (JS.Fin 0.5) (JS.Fin 0.5) [] [] 4 14 in
  description (getArchetype stats)
  = "45 consecutive days of coding. You simply don't stop."%string.
Proof.
  intro stats.
  apply (proj1 (machine_description_dynamic stats)).
  reflexivity.
Defined.

(** X14. With no active day the two guarded conditions (Burst Genius,
    Disciplined Architect) are false, while the Micro-Shipper condition,
    which divides without a guard, holds as soon as there is a session:
    the quotient is then +Infinity. *)
Theorem zero_activeDays_conditions (stats : Stats) :
  activeDays stats = 0%nat ->
  holds burst_genius stats = false
  /\ holds disciplined stats = false
  /\ holds micro_shipper stats = (0 <? totalSessions stats)%nat.
Proof.
  intro H. unfold holds. cbn [condition burst_genius disciplined micro_shipper].
  rewrite H. repeat split.
  destruct (totalSessions stats) as [|n]; [reflexivity|].
  unfold JS.of_nat, JS.of_Z, JS.div, JS.Qzero_b.
  change (Qeq_bool (inject_Z (Z.of_nat 0)) 0) with true.
  assert (E : Qeq_bool (inject_Z (Z.of_nat (S n))) 0 = false).
  { apply Qeq_bool_false_iff. intro K.
    apply (proj1 (inject_Z_injective _ 0)) in K. lia. }
  assert (P : JS.Qpos_b (inject_Z (Z.of_nat (S n))) = true).
  { unfold JS.Qpos_b. apply negb_true_iff, Qle_bool_false_iff.
    apply (inject_Z_lt 0). lia. }
  rewrite E, P. reflexivity.
Qed.

Lemma zero_activeDays_conditions_witness :
  let stats :=
    mkStats 3 (JS.Fin 1) 0 (JS.Fin 1) 1
            (JS.Fin 0) (JS.Fin 0) (JS.Fin 1) (JS.Fin 0)
            (JS.Fin 0) (JS.Fin 0.3) [] [] 5 14 in
  holds burst_genius stats = false
  /\ holds disciplined stats = false
  /\ holds micro_shipper stats = true.
Proof.
  intro stats.
  apply (zero_activeDays_conditions stats).
  reflexivity.
Defined.

(** ** File reading *)

Lemma indexOf_LF_ge (s : string) : (-1 <= indexOf_LF s)%Z.
Proof.
  induction s as [|c r IH]; cbn [indexOf_LF]; [lia|].
  destruct (Ascii.eqb c LF); [lia|].
  destruct (Z.ltb_spec (indexOf_LF r) 0); lia.
Qed.

Lemma noLF_cons (c : ascii) (r : string) :
  indexOf_LF (String c r) = (-1)%Z <-> c <> LF /\ indexOf_LF r = (-1)%Z.
Proof.
  cbn [indexOf_LF]. pose proof (indexOf_LF_ge r) as G.
  destruct (Ascii.eqb_spec c LF) as [-> | Hn].
  - split; [discriminate | intros [K _]; now elim K].
  - destruct (Z.ltb_spec (indexOf_LF r) 0); split; try lia;
      intros; split; auto; lia.
Qed.

(** The text before the first line feed holds none. *)
Lemma substring0_noLF (s : string) :
  (0 <= indexOf_LF s)%Z ->
  indexOf_LF (substring0 (Z.to_nat (indexOf_LF s)) s) = (-1)%Z.
Proof.
  induction s as [|c r IH]; cbn [indexOf_LF]; [lia|].
  destruct (Ascii.eqb_spec c LF) as [-> | Hn]; [reflexivity|].
  pose proof (indexOf_LF_ge r).
  destruct (Z.ltb_spec (indexOf_LF r) 0) as [Hlt | Hge]; [lia|]. intros _.
  replace (Z.to_nat (indexOf_LF r + 1)) with (S (Z.to_nat (indexOf_LF r))) by lia.
  cbn [substring0]. apply noLF_cons. split; [exact Hn | now apply IH].
Qed.

Lemma split_LF_noLF (s : string) :
  Forall (fun piece => indexOf_LF piece = (-1)%Z) (split_LF s).
Proof.
  induction s as [|c r IH]; cbn [split_LF]; [repeat constructor|].
  destruct (Ascii.eqb_spec c LF) as [-> | Hn]; [now constructor|].
  destruct (split_LF r) as [|piece pieces].
  - constructor; [|constructor]. apply noLF_cons. now split.
  - inversion IH; subst. constructor; [|assumption].
    apply noLF_cons. now split.
Qed.

(** X16. Neither of the two lines that [readFirstLastLine] returns holds a
    line feed, and the last line is either the first line again or a line
    of the tail that is not blank. *)
Theorem readFirstLastLine_lines (f : FileRead) (a b : string) :
  readFirstLastLine f = Some (a, b) ->
  indexOf_LF a = (-1)%Z
  /\ indexOf_LF b = (-1)%Z
  /\ (b = a \/ (blank b = false /\ In b (split_LF (tailChunk f)))).
Proof.
  unfold readFirstLastLine.
  destruct (firstBytes f =? 0)%nat; [discriminate|].
  set (a0 := if (0 <=? indexOf_LF (firstChunk f))%Z
             then substring0 (Z.to_nat (indexOf_LF (firstChunk f))) (firstChunk f)
             else firstChunk f).
  assert (Ha : indexOf_LF a0 = (-1)%Z).
  { unfold a0. destruct (Z.leb_spec 0 (indexOf_LF (firstChunk f))) as [H | H].
    - now apply substring0_noLF.
    - pose proof (indexOf_LF_ge (firstChunk f)). lia. }
  destruct (fileSize f <? 2)%nat.
  - intros [= <- <-]. auto.
  - destruct (List.rev (filter (fun l => negb (blank l)) (split_LF (tailChunk f))))
      as [|l ls] eqn:E.
    + intros [= <- <-]. auto.
    + assert (Hin : In l (filter (fun l => negb (blank l)) (split_LF (tailChunk f)))).
      { apply in_rev. rewrite E. now left. }
      apply filter_In in Hin. destruct Hin as [Hin Hb].
      apply negb_true_iff in Hb.
      destruct (String.eqb l EmptyString); intros [= <- <-]; [auto|].
      split; [exact Ha|]. split; [|right; now split].
      pose proof (split_LF_noLF (tailChunk f)) as F.
      rewrite Forall_forall in F. now apply F.
Qed.

Lemma readFirstLastLine_lines_witness :
  let nl := String LF EmptyString in
  let text := ("first" ++ nl ++ "second" ++ nl ++ "   " ++ nl)%string in
  indexOf_LF "first" = (-1)%Z
  /\ indexOf_LF "second" = (-1)%Z
  /\ ("second"%string = "first"%string
      \/ (blank "second" = false /\ In "second"%string (split_LF text))).
Proof.
  intros nl text.
  apply (readFirstLastLine_lines (mkFileRead 17 text 17 text)).
  reflexivity.
Defined.

Lemma split_LF_single (x : string) :
  indexOf_LF x = (-1)%Z -> split_LF x = [x].
Proof.
  induction x as [|c r IH]; [reflexivity|]. intro H.
  apply noLF_cons in H. destruct H as [Hc Hr]. cbn [split_LF].
  destruct (Ascii.eqb_spec c LF) as [E | _]; [contradiction|].
  now rewrite (IH Hr).
Qed.

Lemma split_LF_app (x r : string) :
  indexOf_LF x = (-1)%Z ->
  split_LF (x ++ String LF r) = x :: split_LF r.
Proof.
  induction x as [|c x IH]; intro H.
  - cbn [append split_LF]. now rewrite Ascii.eqb_refl.
  - apply noLF_cons in H. destruct H as [Hc Hx].
    cbn [append split_LF].
    destruct (Ascii.eqb_spec c LF) as [E | _]; [contradiction|].
    now rewrite (IH Hx).
Qed.

Lemma split_LF_concat (ls : list string) :
  ls <> [] ->
  Forall (fun l => indexOf_LF l = (-1)%Z) ls ->
  split_LF (String.concat (String LF EmptyString) ls) = ls.
Proof.
  induction ls as [|x ls IH]; [contradiction|]. intros _ F.
  inversion F as [|? ? Hx F']; subst.
  destruct ls as [|y ls].
  - cbn [String.concat]. now apply split_LF_single.
  - change (String.concat (String LF EmptyString) (x :: y :: ls))
      with (x ++ String LF (String.concat (String LF EmptyString) (y :: ls)))%string.
    rewrite split_LF_app by exact Hx. f_equal. apply IH; [discriminate | exact F'].
Qed.

Lemma indexOf_LF_app (x r : string) :
  indexOf_LF x = (-1)%Z ->
  indexOf_LF (x ++ String LF r) = Z.of_nat (String.length x).
Proof.
  induction x as [|c x IH]; intro H.
  - reflexivity.
  - apply noLF_cons in H. destruct H as [Hc Hx].
    cbn [append indexOf_LF String.length].
    destruct (Ascii.eqb_spec c LF) as [E | _]; [contradiction|].
    rewrite (IH Hx). destruct (Z.ltb_spec (Z.of_nat (String.length x)) 0); lia.
Qed.

Lemma substring0_app (x r : string) :
  substring0 (String.length x) (x ++ r) = x.
Proof.
  induction x as [|c x IH]; cbn [append String.length substring0].
  - now destruct r.
  - now rewrite IH.
Qed.

Lemma rev_head_last {A : Type} (l : list A) (a : A) :
  exists t, List.rev (a :: l) = last l a :: t.
Proof.
  revert a. induction l as [|b l IH]; intro a.
  - now exists [].
  - destruct (IH b) as (t & E). exists (t ++ [a]).
    change (List.rev (a :: b :: l)) with (List.rev (b :: l) ++ [a]).
    rewrite E. rewrite <- app_comm_cons. f_equal.
    destruct l as [|c l]; [reflexivity|].
    change (last (b :: c :: l) a) with (last (c :: l) a).
    apply last_cons_default.
Qed.

(** X17. When both reads cover the same whole text, made of lines that are
    not blank followed by any number of blank ones (a final line feed
    gives one), [readFirstLastLine] returns the first and the last of the
    lines that are not blank. *)
Theorem readFirstLastLine_whole_text (l1 : string) (rest blanks : list string)
        (n size : nat) :
  Forall (fun l => indexOf_LF l = (-1)%Z /\ blank l = false) (l1 :: rest) ->
  Forall (fun l => indexOf_LF l = (-1)%Z /\ blank l = true) blanks ->
  n <> 0%nat -> (2 <= size)%nat ->
  let text := String.concat (String LF EmptyString) ((l1 :: rest) ++ blanks) in
  readFirstLastLine (mkFileRead n text size text) = Some (l1, last rest l1).
Proof.
  intros Fl Fb Hn Hsize text.
  assert (Fall : Forall (fun l => indexOf_LF l = (-1)%Z) ((l1 :: rest) ++ blanks)).
  { apply Forall_app. split; eapply Forall_impl; try eassumption;
      cbn; intros ? [? _]; assumption. }
  assert (Hsplit : split_LF text = (l1 :: rest) ++ blanks)
    by (apply split_LF_concat; [discriminate | exact Fall]).
  assert (H1 : indexOf_LF l1 = (-1)%Z) by (inversion Fl as [|? ? [? _] _]; assumption).
  assert (Hfirst : (if (0 <=? indexOf_LF text)%Z
                    then substring0 (Z.to_nat (indexOf_LF text)) text
                    else text) = l1).
  { unfold text. rewrite <- app_comm_cons.
    destruct (rest ++ blanks) as [|y ys].
    - change (String.concat (String LF EmptyString) [l1]) with l1.
      rewrite H1. reflexivity.
    - change (String.concat (String LF EmptyString) (l1 :: y :: ys))
        with (l1 ++ String LF (String.concat (String LF EmptyString) (y :: ys)))%string.
      rewrite indexOf_LF_app by exact H1.
      destruct (Z.leb_spec 0 (Z.of_nat (String.length l1))); [|lia].
      rewrite Nat2Z.id. apply substring0_app. }
  assert (Hfilter : filter (fun l => negb (blank l)) ((l1 :: rest) ++ blanks)
                    = l1 :: rest).
  { rewrite filter_app.
    assert (A : filter (fun l => negb (blank l)) (l1 :: rest) = l1 :: rest).
    { clear - Fl. induction Fl as [|x l [_ Hx] _ IH]; [reflexivity|].
      cbn [filter]. rewrite Hx. cbn. now rewrite IH. }
    assert (B : filter (fun l => negb (blank l)) blanks = []).
    { clear - Fb. induction Fb as [|x l [_ Hx] _ IH]; [reflexivity|].
      cbn [filter]. rewrite Hx. cbn. exact IH. }
    rewrite A, B. apply app_nil_r. }
  unfold readFirstLastLine.
  cbn [firstBytes firstChunk fileSize tailChunk].
  replace (n =? 0)%nat with false by (symmetry; now apply Nat.eqb_neq).
  replace (size <? 2)%nat with false by (symmetry; apply Nat.ltb_ge; lia).
  rewrite Hfirst, Hsplit, Hfilter.
  destruct (rev_head_last rest l1) as (t & E). rewrite E.
  assert (Hlast : blank (last rest l1) = false).
  { assert (Hin : In (last rest l1) (l1 :: rest)).
    { apply in_rev. rewrite E. now left. }
    rewrite Forall_forall in Fl. now destruct (Fl _ Hin). }
  destruct (String.eqb_spec (last rest l1) EmptyString) as [E0 | _];
    [rewrite E0 in Hlast; discriminate Hlast | reflexivity].
Qed.

Lemma readFirstLastLine_whole_text_witness :
  let nl := String LF EmptyString in
  readFirstLastLine
    (mkFileRead 15
       (String.concat nl (("alpha" :: ["beta"; "gamma"]) ++ [EmptyString]))%string 15
       (String.concat nl (("alpha" :: ["beta"; "gamma"]) ++ [EmptyString]))%string)
  = Some ("alpha", "gamma")%string.
Proof.
  intro nl.
  apply (readFirstLastLine_whole_text "alpha" ["beta"; "gamma"]%string
                                      [EmptyString] 15 15).
  - repeat constructor.
  - repeat constructor.
  - discriminate.
  - repeat constructor.
Defined.

(** ** Rendering *)

Lemma max_of_nat (a b : nat) :
  JS.max (JS.of_nat a) (JS.of_nat b) = JS.of_nat (Nat.max a b).
Proof.
  unfold JS.of_nat, JS.of_Z. cbn [JS.max JS.leb].
  destruct (Qle_bool (inject_Z (Z.of_nat a)) (inject_Z (Z.of_nat b))) eqn:E.
  - apply Qle_bool_iff in E. rewrite <- Zle_Qle in E.
    now replace (Nat.max a b) with b by lia.
  - apply Qle_bool_false_iff in E. rewrite <- Zlt_Qlt in E.
    now replace (Nat.max a b) with a by lia.
Qed.

(** On a non-empty array [Math.max(...a)] is the largest count. *)
Lemma Math_max_maxOf (x : nat) (l : list nat) :
  Math_max (x :: l) = JS.of_nat (maxOf (x :: l)).
Proof.
  unfold Math_max, maxOf. cbn [fold_left].
  change (JS.max JS.NInf (JS.of_nat x)) with (JS.of_nat x).
  change (Nat.max 0 x) with x.
  revert x. induction l as [|y l IH]; intro x; [reflexivity|].
  cbn [fold_left]. rewrite max_of_nat. apply IH.
Qed.

Lemma maxOf_zero (l : list nat) : Forall (fun v => v = 0%nat) l -> maxOf l = 0%nat.
Proof.
  induction 1 as [|x l Hx _ IH]; [reflexivity|].
  rewrite maxOf_cons, Hx, IH. reflexivity.
Qed.

Lemma maxOf_ge_In (l : list nat) (v : nat) : In v l -> (v <= maxOf l)%nat.
Proof.
  induction l as [|x l IH]; [intros []|]. rewrite maxOf_cons.
  intros [-> | H]; [lia|]. specialize (IH H). lia.
Qed.

(** The level of a bar: between 0 and 7, 7 for the largest count and 0
    for a count of zero. *)
Lemma barLevel_range (m v : nat) :
  (0 < m)%nat -> (v <= m)%nat ->
  exists k : nat,
    barLevel (JS.of_nat m) v = JS.of_nat k
    /\ (k <= 7)%nat
    /\ (v = m -> k = 7%nat)
    /\ (v = 0%nat -> k = 0%nat).
Proof.
  intros Hm Hv.
  assert (Hmq : 0 < inject_Z (Z.of_nat m)) by (apply (inject_Z_lt 0); lia).
  unfold barLevel, JS.of_nat, JS.of_Z.
  rewrite div_Fin by lra. cbn [JS.mul Math_round].
  destruct (fraction_in_unit v m Hv ltac:(lia)) as [F0 F1].
  assert (Rm : v = m -> inject_Z (Z.of_nat v) / inject_Z (Z.of_nat m) == 1)
    by (intros ->; field; lra).
  assert (Rz : v = 0%nat -> inject_Z (Z.of_nat v) / inject_Z (Z.of_nat m) == 0)
    by (intros ->; cbn; field; lra).
  set (r := inject_Z (Z.of_nat v) / inject_Z (Z.of_nat m)) in *.
  clearbody r.
  set (x := r * 7).
  assert (X0 : 0 <= x) by (unfold x; lra).
  assert (X7 : x <= 7) by (unfold x; lra).
  pose proof (Qfloor_le (x + (1 # 2))) as L.
  pose proof (Qlt_floor (x + (1 # 2))) as U.
  rewrite inject_Z_plus in U. change (inject_Z 1) with 1 in U.
  set (k := Qfloor (x + (1 # 2))) in *.
  assert (K0 : (0 <= k)%Z).
  { assert (A : inject_Z (-1) < inject_Z k) by (change (inject_Z (-1)) with (-1); lra).
    rewrite <- Zlt_Qlt in A. lia. }
  assert (K7 : (k <= 7)%Z).
  { assert (A : inject_Z k < inject_Z 8) by (change (inject_Z 8) with 8; lra).
    rewrite <- Zlt_Qlt in A. lia. }
  exists (Z.to_nat k). rewrite Z2Nat.id by exact K0.
  split; [reflexivity|]. split; [lia|]. split.
  - intro Ev. specialize (Rm Ev).
    assert (E : x == 7) by (unfold x; lra).
    assert (A : inject_Z 6 < inject_Z k) by (change (inject_Z 6) with 6; lra).
    rewrite <- Zlt_Qlt in A. lia.
  - intro Ev. specialize (Rz Ev).
    assert (E : x == 0) by (unfold x; lra).
    assert (A : inject_Z k < inject_Z 1) by (change (inject_Z 1) with 1; lra).
    rewrite <- Zlt_Qlt in A. lia.
Qed.

Lemma array_get_blocks (k : nat) :
  (k <= 7)%nat ->
  array_get blocks (JS.of_nat k) = Some (nth k blocks EmptyString).
Proof.
  intro Hk. unfold array_get, JS.of_nat, JS.of_Z.
  rewrite Qfloor_Z, Nat2Z.id.
  assert (A : Qle_bool 0 (inject_Z (Z.of_nat k)) = true)
    by (apply Qle_bool_iff, inject_Z_of_nat_nonneg).
  assert (B : Qeq_bool (inject_Z (Z.of_nat k)) (inject_Z (Z.of_nat k)) = true)
    by (apply Qeq_bool_iff; reflexivity).
  rewrite A, B. cbn [andb].
  do 8 (destruct k as [|k]; [reflexivity|]). lia.
Qed.

Lemma nth_mapi_from {A B : Type} (f : A -> nat -> B) (a : list A) (dA : A) (dB : B) :
  forall h0 h, (h < List.length a)%nat ->
    nth h (mapi_from f h0 a) dB = f (nth h a dA) (h0 + h)%nat.
Proof.
  induction a as [|v a IH]; intros h0 h Hh; cbn [List.length] in Hh; [lia|].
  destruct h as [|h]; cbn [mapi_from nth].
  - now rewrite Nat.add_0_r.
  - rewrite IH by lia. f_equal. lia.
Qed.

Lemma mapi_from_length {A B : Type} (f : A -> nat -> B) (a : list A) (h0 : nat) :
  List.length (mapi_from f h0 a) = List.length a.
Proof.
  revert h0. induction a as [|v a IH]; intro h0; cbn; [reflexivity|].
  now rewrite IH.
Qed.

(** The cells of a bar over a histogram that is not all zeros. *)
Lemma hourBar_cells (buckets : list nat) (peakHour : Z) :
  (exists v, In v buckets /\ (0 < v)%nat) ->
  exists cells,
    renderHourBar buckets peakHour = String.concat EmptyString cells
    /\ List.length cells = List.length buckets
    /\ forall h, (h < List.length buckets)%nat ->
         exists k,
           (k <= 7)%nat
           /\ nth h cells EmptyString
              = (let block := nth k blocks EmptyString in
                 if (Z.of_nat h =? peakHour)%Z
                 then C.yellow ++ block ++ C.reset
                 else if (h <=? 4)%nat then C.dim ++ block ++ C.reset
                      else block)%string
           /\ (nth h buckets 0%nat = maxOf buckets -> k = 7%nat)
           /\ (nth h buckets 0%nat = 0%nat -> k = 0%nat).
Proof.
  intros (v0 & Hin & Hpos). unfold renderHourBar.
  destruct buckets as [|x l]; [destruct Hin|].
  rewrite Math_max_maxOf.
  set (b := x :: l) in *. set (m := maxOf b).
  assert (Hm : (0 < m)%nat) by (pose proof (maxOf_ge_In b v0 Hin); unfold m; lia).
  assert (Z0 : JS.eqb (JS.of_nat m) (JS.Fin 0) = false).
  { unfold JS.eqb, JS.of_nat, JS.of_Z. apply Qeq_bool_false_iff. intro K.
    apply (proj1 (inject_Z_injective (Z.of_nat m) 0)) in K. lia. }
  rewrite Z0.
  exists (map in_join (mapi_from (hourCell (JS.of_nat m) peakHour) 0 b)).
  split; [reflexivity|]. split; [now rewrite length_map, mapi_from_length|].
  intros h Hh.
  destruct (barLevel_range m (nth h b 0%nat) Hm (maxOf_ge b h))
    as (k & Ek & Hk & Kmax & Kzero).
  exists k. split; [exact Hk|]. split; [|split; assumption].
  change EmptyString with (in_join None) at 1.
  rewrite map_nth.
  rewrite (nth_mapi_from _ b 0%nat None 0 h Hh). cbn [Nat.add].
  unfold hourCell. rewrite Ek, (array_get_blocks k Hk). cbn [in_template].
  destruct (Z.of_nat h =? peakHour)%Z; [reflexivity|].
  cbn [Nat.leb andb]. destruct (h <=? 4)%nat; reflexivity.
Qed.

(** X18. A histogram of zeros renders as the empty string.  Otherwise the
    bar has one cell per bucket, each showing one of the eight blocks
    (never [undefined]): the full block for a largest bucket, the lowest
    one for an empty bucket; the cell of the peak hour is yellow, the other
    cells of the hours 0 to 4 are dim. *)
Theorem renderHourBar_cells (buckets : list nat) (peakHour : Z) :
  (Forall (fun v => v = 0%nat) buckets ->
   renderHourBar buckets peakHour = EmptyString)
  /\ ((exists v, In v buckets /\ (0 < v)%nat) ->
      exists cells,
        renderHourBar buckets peakHour = String.concat EmptyString cells
        /\ List.length cells = List.length buckets
        /\ forall h, (h < List.length buckets)%nat ->
             exists k,
               (k <= 7)%nat
               /\ nth h cells EmptyString
                  = (let block := nth k blocks EmptyString in
                     if (Z.of_nat h =? peakHour)%Z
                     then C.yellow ++ block ++ C.reset
                     else if (h <=? 4)%nat then C.dim ++ block ++ C.reset
                          else block)%string
               /\ (nth h buckets 0%nat = maxOf buckets -> k = 7%nat)
               /\ (nth h buckets 0%nat = 0%nat -> k = 0%nat)).
Proof.
  split.
  - intro Hz. unfold renderHourBar.
    destruct buckets as [|x l]; [reflexivity|].
    rewrite Math_max_maxOf, (maxOf_zero _ Hz). reflexivity.
  - apply hourBar_cells.
Qed.

Lemma renderHourBar_cells_witness :
  exists cells,
    renderHourBar [0; 3; 1]%nat 1 = String.concat EmptyString cells
    /\ List.length cells = List.length [0; 3; 1]%nat
    /\ forall h, (h < List.length [0; 3; 1]%nat)%nat ->
         exists k,
           (k <= 7)%nat
           /\ nth h cells EmptyString
              = (let block := nth k blocks EmptyString in
                 if (Z.of_nat h =? 1)%Z
                 then C.yellow ++ block ++ C.reset
                 else if (h <=? 4)%nat then C.dim ++ block ++ C.reset
                      else block)%string
           /\ (nth h [0; 3; 1]%nat 0%nat = maxOf [0; 3; 1]%nat -> k = 7%nat)
           /\ (nth h [0; 3; 1]%nat 0%nat = 0%nat -> k = 0%nat).
Proof.
  apply (proj2 (renderHourBar_cells [0; 3; 1]%nat 1)).
  exists 3%nat. split; [right; left; reflexivity | lia].
Defined.

(** A histogram with its peak at 02:00. *)
Example hour_bar_sample :
  renderHourBar [0; 0; 5; 0; 0; 2; 1]%nat 2
  = (C.dim ++ "▁" ++ C.reset ++ C.dim ++ "▁" ++ C.reset
     ++ C.yellow ++ "█" ++ C.reset
     ++ C.dim ++ "▁" ++ C.reset ++ C.dim ++ "▁" ++ C.reset
     ++ "▄" ++ "▂")%string.
Proof. reflexivity. Qed.

Lemma leb_weaken (a b : Q) (x : JS.num) :
  b <= a -> JS.leb (JS.Fin a) x = true -> JS.leb (JS.Fin b) x = true.
Proof.
  intro Hba. destruct x as [q| | |]; cbn; try (intro; assumption).
  rewrite !Qle_bool_iff. intro H. now apply Qle_trans with a.
Qed.

(** X19. The time-of-day line of the report agrees with the archetype: a
    Midnight Beast is always labelled a night owl, and a Dawn Coder a
    night owl or an early bird, never an evening or day coder. *)
Theorem timeLabel_matches_archetype (pct : JS.num -> string) (stats : Stats) :
  let owl := (C.blue ++ "🌙 Night owl (" ++ pct (nightPct stats)
              ++ " night sessions)" ++ C.reset)%string in
  let bird := (C.yellow ++ "🌅 Early bird (" ++ pct (morningPct stats)
               ++ " morning sessions)" ++ C.reset)%string in
  (id (getArchetype stats) = "night_beast"%string -> timeLabel pct stats = owl)
  /\ (id (getArchetype stats) = "dawn_coder"%string ->
      timeLabel pct stats = owl \/ timeLabel pct stats = bird).
Proof.
  intros owl bird. split; intro Hid.
  - apply (getArchetype_id_first stats [] (tl ARCHETYPES) night_beast eq_refl) in Hid.
    destruct Hid as [_ Hn].
    change (holds night_beast stats)
      with (JS.leb (JS.Fin 0.30) (nightPct stats)) in Hn.
    apply (leb_weaken 0.30 0.25) in Hn; [|discriminate].
    unfold timeLabel, JS.geb. now rewrite Hn.
  - apply (getArchetype_id_first stats [night_beast] (tl (tl ARCHETYPES))
                                 dawn_coder eq_refl) in Hid.
    destruct Hid as [_ Hd].
    change (holds dawn_coder stats)
      with (JS.leb (JS.Fin 0.40) (morningPct stats)) in Hd.
    apply (leb_weaken 0.40 0.30) in Hd; [|discriminate].
    unfold timeLabel, JS.geb.
    destruct (JS.leb (JS.Fin 0.25) (nightPct stats)); [now left|].
    rewrite Hd. now right.
Qed.

Lemma timeLabel_matches_archetype_witness :
  let stats :=
    mkStats 100 (JS.Fin 50) 50 (JS.Fin 60) 45
            (JS.Fin 0.4) (JS.Fin 0.1) (JS.Fin 0.3) (JS.Fin 0.2)
            (JS.Fin 0.5) (JS.Fin 0.5) [] [] 4 2 in
  timeLabel (fun _ => "40%"%string) stats
  = (C.blue ++ "🌙 Night owl (" ++ "40%" ++ " night sessions)" ++ C.reset)%string.
Proof.
  intro stats.
  apply (proj1 (timeLabel_matches_archetype (fun _ => "40%"%string) stats)).
  reflexivity.
Defined.

Section ReportProperties.

Variable tz : Z -> Z.
Variable tzAtLocal : Z -> Z.
Variable parseLegacy : Z -> Date.


End ReportProperties.

(** ** The further properties on the sample data *)

Lemma band_fractions_in_unit_interval_witness :
  exists st a b c d,
    computeStats utc utc rejecting sample_sessions = Some st
    /\ nightPct st = JS.Fin a /\ morningPct st = JS.Fin b
    /\ afternoonPct st = JS.Fin c /\ eveningPct st = JS.Fin d
    /\ 0 <= a <= 1 /\ 0 <= b <= 1 /\ 0 <= c <= 1 /\ 0 <= d <= 1.
Proof.
  apply (band_fractions_in_unit_interval utc utc rejecting sample_sessions).
  discriminate.
Defined.

Lemma peakHour_first_maximum_witness :
  exists st p,
    computeStats utc utc rejecting sample_sessions = Some st
    /\ peakHour st = Z.of_nat p
    /\ (p < 24)%nat
    /\ (forall h, (nth h (hourBuckets st) 0 <= nth p (hourBuckets st) 0)%nat)
    /\ (forall h, (h < p)%nat ->
                  (nth h (hourBuckets st) 0 < nth p (hourBuckets st) 0)%nat).
Proof.
  apply (peakHour_first_maximum utc utc rejecting sample_sessions).
  discriminate.
Defined.

Lemma activeDays_bounds_witness :
  exists st,
    computeStats utc utc rejecting sample_sessions = Some st
    /\ (1 <= activeDays st <= totalSessions st)%nat
    /\ (1 <= maxStreak st <= activeDays st)%nat.
Proof.
  apply (activeDays_bounds utc utc rejecting sample_sessions).
  discriminate.
Defined.

Lemma scanned_hours_floor_witness :
  exists st total avg,
    computeStats utc utc rejecting (scanSessions sample_files) = Some st
    /\ totalHours st = JS.Fin total
    /\ avgSessionHours st = JS.Fin avg
    /\ 0.0099 * inject_Z (Z.of_nat (totalSessions st)) <= total
    /\ 0.0099 <= avg.
Proof.
  apply (scanned_hours_floor utc utc rejecting sample_files).
  vm_compute. discriminate.
Defined.

Lemma activeDays_counts_distinct_days_witness :
  exists st days,
    computeStats utc utc rejecting sample_sessions = Some st
    /\ activeDays st = List.length days
    /\ NoDup days
    /\ forall k, In k days
                 <-> exists s, In s sample_sessions
                               /\ toDateString utc (start s) = k.
Proof.
  apply (activeDays_counts_distinct_days utc utc rejecting sample_sessions).
  discriminate.
Defined.

Lemma histograms_order_independent_witness :
  exists st st',
    computeStats utc utc rejecting sample_sessions = Some st
    /\ computeStats utc utc rejecting (List.rev sample_sessions) = Some st'
    /\ totalSessions st' = totalSessions st
    /\ hourBuckets st' = hourBuckets st
    /\ dayBuckets st' = dayBuckets st
    /\ nightPct st' = nightPct st
    /\ morningPct st' = morningPct st
    /\ afternoonPct st' = afternoonPct st
    /\ eveningPct st' = eveningPct st
    /\ weekendRatio st' = weekendRatio st
    /\ peakHour st' = peakHour st
    /\ activeDays st' = activeDays st.
Proof.
  apply (histograms_order_independent utc utc rejecting sample_sessions
                                      (List.rev sample_sessions)).
  - apply Permutation_rev.
  - discriminate.
Defined.

Lemma streak_order_independent_witness :
  exists st st',
    computeStats utc utc rejecting sample_sessions = Some st
    /\ computeStats utc utc rejecting (List.rev sample_sessions) = Some st'
    /\ totalDays st' = totalDays st
    /\ maxStreak st' = maxStreak st.
Proof.
  apply (streak_order_independent utc utc rejecting sample_sessions
                                  (List.rev sample_sessions)).
  - apply Permutation_rev.
  - discriminate.
  - exact sample_sessions_parsed.
Defined.


(** The three sample files in both orders: four sessions on three days,
    the same report. *)
Example sample_files_report :
  match main utc utc rejecting sample_files 3, main utc utc rejecting (List.rev sample_files) 3 with
  | Report st a, Report st' a' =>
      (totalSessions st, activeDays st, maxStreak st, id a)
      = (4%nat, 3%nat, 3%nat, "night_beast"%string)
      /\ id a' = id a
  | _, _ => False
  end.
Proof. vm_compute. split; reflexivity. Qed.
